(** * MQTT connection controller (MQTT_Ctrl): a shallow embedding

    The repository holds two variants of the same module:
    - [src/js6.js]            (module [Js6] below),
    - [src/unnamed/part_000]  (module [Part000] below).

    Both are an immediately-invoked closure around six private variables
    ([client], [connectedToBroker], [esp32ConfirmedOnline], the two host
    callbacks and [deviceReadyTimeoutId]).  The closure variables become the
    fields of [World]; every JavaScript function becomes a computation in the
    monad [M], which threads the world, collects the observable effects
    (console output, host callbacks, calls on the Paho client, timer calls)
    and propagates exceptions the way JavaScript does.

    What is external to the repository is kept abstract:
    - the Paho client is a [Transport]: each of its methods may return or
      raise, and may change the client's own state;
    - host callbacks are assumed to return normally and not to call back
      into the controller;
    - strings are sequences of 8-bit characters; [toLowerCase] acts on the
      letters A-Z. *)

From Stdlib Require Import String Ascii List Bool Arith NArith Lia Relations.
Import ListNotations.
Open Scope string_scope.
Open Scope list_scope.

(** ** JavaScript values, strings, exceptions *)

Inductive JsValue : Type :=
| VBool (b : bool)
| VStr (s : string)
| VFun (name : string).

Inductive Exn : Type :=
| ReferenceError (name : string)   (* an identifier that resolves nowhere *)
| TypeError (what : string)        (* a property read on null *)
| TransportError.                  (* anything a Paho method throws *)

(** [hay.includes(needle)] *)
Fixpoint includes (needle hay : string) : bool :=
  if prefix needle hay then true
  else match hay with
       | EmptyString => false
       | String _ rest => includes needle rest
       end.

Definition lowerAscii (c : ascii) : ascii :=
  let n := nat_of_ascii c in
  if Nat.leb 65 n && Nat.leb n 90 then ascii_of_nat (n + 32) else c.

(** [s.toLowerCase()] *)
Fixpoint toLowerCase (s : string) : string :=
  match s with
  | EmptyString => EmptyString
  | String c rest => String (lowerAscii c) (toLowerCase rest)
  end.

(** JavaScript truthiness of a string: the empty string is falsy. *)
Definition truthy (s : string) : bool :=
  match s with EmptyString => false | _ => true end.

(** ** What the controller does to the outside world *)

Record ConnectOptions : Type := mkOptions {
  onSuccess : JsValue;
  onFailure : JsValue;
  useSSL : JsValue;
  cleanSession : bool;
  reconnect : bool;
  timeout : nat;
  willMessage : string;
  willDestinationName : JsValue;
  willQos : nat;
  willRetain : bool
}.

Inductive Effect : Type :=
| ConsoleLog (m : string)
| ConsoleError (m : string)
| StatusCallback (args : list JsValue)   (* onConnectionStatusChangeCallback(...) *)
| DataCallback (payload : string)        (* onDataReceivedCallback(payload) *)
| ClientConnect (o : ConnectOptions)     (* client.connect(o) *)
| ClientSubscribe (topic : string)
| ClientUnsubscribe (topic : string)
| ClientDisconnect
| ClientSend (topic payload : string)
| SetTimeout (id : nat) (ms : N)
| ClearTimeout (id : option nat).

Definition isConnectRequest (e : Effect) : bool :=
  match e with ClientConnect _ => true | _ => false end.

Definition isTransportCall (e : Effect) : bool :=
  match e with
  | ClientConnect _ | ClientSubscribe _ | ClientUnsubscribe _
  | ClientDisconnect | ClientSend _ _ => true
  | _ => false
  end.

Definition isStatusCallback (e : Effect) : bool :=
  match e with StatusCallback _ => true | _ => false end.

Definition isSend (e : Effect) : bool :=
  match e with ClientSend _ _ => true | _ => false end.

Definition isSetTimeout (e : Effect) : bool :=
  match e with SetTimeout _ _ => true | _ => false end.

Definition isConsole (e : Effect) : bool :=
  match e with ConsoleLog _ | ConsoleError _ => true | _ => false end.

Definition count (p : Effect -> bool) (tr : list Effect) : nat :=
  length (filter p tr).

(** The argument object of [onConnectFailure] and [onConnectionLost]. *)
Record ResponseObject : Type := mkResponse {
  errorCode : nat;
  errorMessage : string
}.

(** ** The Paho client, as an interface *)

Inductive Reply (T : Type) : Type :=
| Done (t : T)      (* the method returned; the client is now [t] *)
| Raised (t : T).   (* the method threw; the client is now [t] *)
Arguments Done {T} t.
Arguments Raised {T} t.

Class Transport (T : Type) : Type := {
  pahoDefined : bool;                         (* typeof Paho.Client !== 'undefined' *)
  newClient : option T;                       (* new Paho.Client(...); None: it threw *)
  isConnected : T -> bool;                    (* client.isConnected() *)
  connectReq : ConnectOptions -> T -> Reply T;
  subscribeReq : string -> T -> Reply T;
  unsubscribeReq : string -> T -> Reply T;
  disconnectReq : T -> Reply T;
  sendReq : string -> string -> T -> Reply T
}.

(** How a JavaScript function ends. *)
Inductive Completion (A : Type) : Type :=
| Normal (a : A)
| Throw (e : Exn).
Arguments Normal {A} a.
Arguments Throw {A} e.

(** ** The world: closure variables and the timer queue of the event loop *)

Section Runtime.

Context {T : Type} {paho : Transport T}.

Record World : Type := mkWorld {
  client : option T;                          (* null or the Paho client *)
  connectedToBroker : bool;
  esp32ConfirmedOnline : bool;
  onDataReceivedCallback : bool;              (* null or a host function *)
  onConnectionStatusChangeCallback : bool;    (* null or a host function *)
  deviceReadyTimeoutId : option nat;          (* null or a timer id *)
  timers : list nat;                          (* timeouts still pending *)
  nextTimer : nat                             (* the id setTimeout returns next *)
}.

Definition initialWorld : World :=
  mkWorld None false false false false None [] 1.

Definition withClient (c : option T) (w : World) : World :=
  mkWorld c (connectedToBroker w) (esp32ConfirmedOnline w)
          (onDataReceivedCallback w) (onConnectionStatusChangeCallback w)
          (deviceReadyTimeoutId w) (timers w) (nextTimer w).

Definition withStatus (b d : bool) (w : World) : World :=
  mkWorld (client w) b d
          (onDataReceivedCallback w) (onConnectionStatusChangeCallback w)
          (deviceReadyTimeoutId w) (timers w) (nextTimer w).

Definition withDataCallback (f : bool) (w : World) : World :=
  mkWorld (client w) (connectedToBroker w) (esp32ConfirmedOnline w)
          f (onConnectionStatusChangeCallback w)
          (deviceReadyTimeoutId w) (timers w) (nextTimer w).

Definition withStatusCallback (f : bool) (w : World) : World :=
  mkWorld (client w) (connectedToBroker w) (esp32ConfirmedOnline w)
          (onDataReceivedCallback w) f
          (deviceReadyTimeoutId w) (timers w) (nextTimer w).

Definition withTimeoutId (i : option nat) (w : World) : World :=
  mkWorld (client w) (connectedToBroker w) (esp32ConfirmedOnline w)
          (onDataReceivedCallback w) (onConnectionStatusChangeCallback w)
          i (timers w) (nextTimer w).

Definition withTimers (l : list nat) (n : nat) (w : World) : World :=
  mkWorld (client w) (connectedToBroker w) (esp32ConfirmedOnline w)
          (onDataReceivedCallback w) (onConnectionStatusChangeCallback w)
          (deviceReadyTimeoutId w) l n.

(** The pending timeouts after [clearTimeout(id)]; [clearTimeout(null)] and
    a stale id leave the queue alone. *)
Definition cancel (id : option nat) (l : list nat) : list nat :=
  match id with
  | None => l
  | Some i => filter (fun j => negb (Nat.eqb j i)) l
  end.

(** The watchdog is armed when the timer the controller holds is pending. *)
Definition watchdogArmed (w : World) : bool :=
  match deviceReadyTimeoutId w with
  | None => false
  | Some i => existsb (Nat.eqb i) (timers w)
  end.

(** ** The monad: state, effect trace, exceptions *)

Record Res (A : Type) : Type := mkRes {
  completion : Completion A;
  world : World;
  trace : list Effect
}.
Arguments mkRes {A}.
Arguments completion {A}.
Arguments world {A}.
Arguments trace {A}.

Definition M (A : Type) : Type := World -> Res A.

Definition ret {A} (a : A) : M A := fun w => mkRes (Normal a) w [].

Definition bind {A B} (m : M A) (f : A -> M B) : M B := fun w =>
  match m w with
  | mkRes (Normal a) w1 t1 =>
      match f a w1 with
      | mkRes c w2 t2 => mkRes c w2 (t1 ++ t2)
      end
  | mkRes (Throw e) w1 t1 => mkRes (Throw e) w1 t1
  end.

Definition throw {A} (e : Exn) : M A := fun w => mkRes (Throw e) w [].

(** [try { body } catch (error) { handler }] *)
Definition tryCatch {A} (body : M A) (handler : Exn -> M A) : M A := fun w =>
  match body w with
  | mkRes (Normal a) w1 t1 => mkRes (Normal a) w1 t1
  | mkRes (Throw e) w1 t1 =>
      match handler e w1 with
      | mkRes c w2 t2 => mkRes c w2 (t1 ++ t2)
      end
  end.

Definition gets {A} (f : World -> A) : M A := fun w => mkRes (Normal (f w)) w [].
Definition modify (f : World -> World) : M unit := fun w => mkRes (Normal tt) (f w) [].
Definition emit (e : Effect) : M unit := fun w => mkRes (Normal tt) w [e].

(** A method call [client.m(...)]: a property read on null is a TypeError;
    otherwise the call is made (and recorded) and returns or throws. *)
Definition call (req : T -> Reply T) (e : Effect) : M unit := fun w =>
  match client w with
  | None => mkRes (Throw (TypeError "client is null")) w []
  | Some t =>
      match req t with
      | Done t' => mkRes (Normal tt) (withClient (Some t') w) [e]
      | Raised t' => mkRes (Throw TransportError) (withClient (Some t') w) [e]
      end
  end.

(** [client && client.isConnected()] *)
Definition clientIsConnected (w : World) : bool :=
  match client w with
  | None => false
  | Some t => isConnected t
  end.

(** [setTimeout(callback, ms)]: only the watchdog callback is ever scheduled,
    so a pending timer is its id. *)
Definition setTimeout (ms : N) : M nat := fun w =>
  let id := nextTimer w in
  mkRes (Normal id) (withTimers (id :: timers w) (S id) w) [SetTimeout id ms].

Definition clearTimeout (id : option nat) : M unit := fun w =>
  mkRes (Normal tt) (withTimers (cancel id (timers w)) (nextTimer w) w)
        [ClearTimeout id].

Definition completedNormally {A} (r : Res A) : bool :=
  match completion r with Normal _ => true | Throw _ => false end.

(** [m] keeps [I] true of the closure variables, however it ends. *)
Definition preserves (I : World -> Prop) {A} (m : M A) : Prop :=
  forall w, I w -> I (world (m w)).

(** The two flags, in the order (brokerConnected, deviceConfirmed). *)
Definition flags (w : World) : bool * bool :=
  (connectedToBroker w, esp32ConfirmedOnline w).

(** The argument of [init]: which callbacks the host supplied. *)
Record Config : Type := mkConfig {
  cfgOnDataReceived : bool;
  cfgOnConnectionStatusChange : bool
}.

End Runtime.

Arguments World T : clear implicits.
Arguments M T A : clear implicits.
Arguments Res T A : clear implicits.
Arguments mkRes {T A} completion world trace.
Arguments completion {T A} r.
Arguments world {T A} r.
Arguments trace {T A} r.
Arguments completedNormally {T A} r.
Arguments preserves {T} I {A} m.

Notation "x <- m ;; k" := (bind m (fun x => k))
  (at level 61, m at next level, right associativity).
Notation "m ;; k" := (bind m (fun _ => k))
  (at level 61, right associativity).

(** ** src/js6.js

    The closure is only built when [Paho.Client] is defined; otherwise the
    file binds [MQTT_Ctrl] to an object of functions that do nothing. *)

Module Js6.

Section Code.

Context {T : Type} {paho : Transport T}.

Local Abbreviation M := (M T).
Local Abbreviation World := (World T).

Definition MQTT_COMMAND_TOPIC := "ac_remote/SANKAR_AC_BLE_MQTT/command_to_esp32".
Definition MQTT_STATUS_TOPIC := "ac_remote/SANKAR_AC_BLE_MQTT/status_from_esp32".
Definition MQTT_DEVICE_READY_TOPIC := "ac_remote/SANKAR_AC_BLE_MQTT/esp32_ready".
Definition DEVICE_READY_TIMEOUT_MS : N := 10000.
Definition MQTT_USE_SSL := true.

Definition _log (message : string) : M unit :=
  emit (ConsoleLog ("MQTT_Ctrl: " ++ message)%string).

Definition _error (message : string) : M unit :=
  emit (ConsoleError ("MQTT_Ctrl ERROR: " ++ message)%string).

Definition _updateAndNotifyStatus (broker device : bool) (message : string) : M unit :=
  modify (withStatus broker device) ;;
  cb <- gets onConnectionStatusChangeCallback ;;
  if cb then emit (StatusCallback [VBool broker; VBool device; VStr message])
  else ret tt.

Definition disconnect : M unit :=
  c <- gets client ;;
  b <- gets connectedToBroker ;;
  if negb (match c with Some _ => true | None => false end) || negb b then ret tt
  else
    _log "Disconnecting from MQTT broker." ;;
    tryCatch (call disconnectReq ClientDisconnect)
             (fun _ => _error "Error during disconnect:") ;;
    _updateAndNotifyStatus false false "MQTT Disconnected".

(** The function handed to [setTimeout] in [onConnectSuccess]. *)
Definition deviceReadyTimeout : M unit :=
  _error "Device did not report 'online' status in time." ;;
  _updateAndNotifyStatus true false "Device Offline".

Definition onConnectSuccess : M unit :=
  _log "Successfully connected to MQTT broker." ;;
  _updateAndNotifyStatus true false "Awaiting Device..." ;;
  tryCatch
    (call (subscribeReq MQTT_STATUS_TOPIC) (ClientSubscribe MQTT_STATUS_TOPIC) ;;
     call (subscribeReq MQTT_DEVICE_READY_TOPIC) (ClientSubscribe MQTT_DEVICE_READY_TOPIC) ;;
     _log ("Subscribed to: " ++ MQTT_STATUS_TOPIC)%string ;;
     _log ("Subscribed to: " ++ MQTT_DEVICE_READY_TOPIC)%string ;;
     id <- setTimeout DEVICE_READY_TIMEOUT_MS ;;
     modify (withTimeoutId (Some id)))
    (fun _ => _error "Error during subscription:" ;; disconnect).

Definition onConnectFailure (responseObject : ResponseObject) : M unit :=
  _error ("Failed to connect to MQTT broker: " ++ errorMessage responseObject)%string ;;
  _updateAndNotifyStatus false false "MQTT Failed".

Definition onConnectionLost (responseObject : ResponseObject) : M unit :=
  _error ("MQTT connection lost: " ++ errorMessage responseObject)%string ;;
  _updateAndNotifyStatus false false "MQTT Disconnected".

Definition onMessageArrived (topic payload : string) : M unit :=
  _log ("Message arrived on topic: " ++ topic)%string ;;
  if String.eqb topic MQTT_DEVICE_READY_TOPIC then
    if String.eqb payload "online" then
      _log "Device is ONLINE." ;;
      id <- gets deviceReadyTimeoutId ;;
      clearTimeout id ;;
      _updateAndNotifyStatus true true "MQTT Device Online"
    else
      _log "Device is OFFLINE." ;;
      _updateAndNotifyStatus true false "Device Offline"
  else if String.eqb topic MQTT_STATUS_TOPIC then
    cb <- gets onDataReceivedCallback ;;
    if cb then emit (DataCallback payload) else ret tt
  else ret tt.

(** [callbacks] is [None] when the host passes nothing: reading a property
    of undefined is a TypeError. *)
Definition init (callbacks : option Config) : M bool :=
  c <- gets client ;;
  match c with
  | Some _ => _log "MQTT Controller already initialized." ;; ret true
  | None =>
      _log "Initializing MQTT Controller..." ;;
      match callbacks with
      | None => throw (TypeError "callbacks is undefined")
      | Some cb =>
          modify (withDataCallback (cfgOnDataReceived cb)) ;;
          modify (withStatusCallback (cfgOnConnectionStatusChange cb)) ;;
          match newClient with
          | Some t => modify (withClient (Some t)) ;; ret true
          | None => _error "Failed to create Paho client." ;; ret false
          end
      end
  end.

Definition connectOptions : ConnectOptions :=
  mkOptions (VFun "onConnectSuccess") (VFun "onConnectFailure")
            (VBool MQTT_USE_SSL) true true 10
            "offline" (VStr MQTT_DEVICE_READY_TOPIC) 1 true.

Definition connect : M unit :=
  b <- gets connectedToBroker ;;
  if b then _log "Already connected or connecting."
  else
    c <- gets client ;;
    match c with
    | None => _error "Client not initialized. Call init() first."
    | Some _ =>
        _log "Attempting to connect..." ;;
        _updateAndNotifyStatus false false "MQTT Connecting..." ;;
        tryCatch
          (call (connectReq connectOptions) (ClientConnect connectOptions))
          (fun _ =>
             _error "Error during client.connect call:" ;;
             _updateAndNotifyStatus false false "MQTT Connection Error")
    end.

Definition isBrokerConnected (w : World) : bool := connectedToBroker w.

Definition isFullyConnected (w : World) : bool :=
  connectedToBroker w && esp32ConfirmedOnline w.

(** The argument is a string, as its name says; [new Paho.Message] accepts
    every string. *)
Definition publish (jsonString : string) : M bool :=
  full <- gets isFullyConnected ;;
  if negb full then
    _error "Cannot publish: Not fully connected." ;; ret false
  else
    tryCatch
      (call (sendReq MQTT_COMMAND_TOPIC jsonString)
            (ClientSend MQTT_COMMAND_TOPIC jsonString) ;;
       ret true)
      (fun _ => _error "Publish error:" ;; ret false).

Definition forceDeviceOnlineConfirmation : M unit :=
  b <- gets isBrokerConnected ;;
  d <- gets esp32ConfirmedOnline ;;
  if b && negb d then
    _log "Device online status confirmed via alternative method (e.g., BLE)." ;;
    id <- gets deviceReadyTimeoutId ;;
    clearTimeout id ;;
    _updateAndNotifyStatus true true "MQTT Device Online"
  else ret tt.

End Code.

End Js6.

(** ** src/unnamed/part_000

    [connect] of this file assigns and passes on six identifiers that the
    file declares nowhere ([onMessageArrived], [onConnectionLost],
    [onConnectSuccess], [onConnectFailure], [MQTT_USE_SSL],
    [MQTT_DEVICE_READY_TOPIC]); they resolve in the global scope, which is
    the parameter [globals].  The handlers the file does define are the two
    arrow functions [init] stores in the client; they are named after the
    property they are stored in. *)

Module Part000.

Section Code.

Context {T : Type} {paho : Transport T}.

Variable globals : string -> option JsValue.

Local Abbreviation M := (M T).
Local Abbreviation World := (World T).

Definition MQTT_BROKER_HOST := "broker.hivemq.com".
Definition MQTT_BASE_TOPIC_PREFIX := "ac_remote/SANKAR_AC_BLE_MQTT".
Definition MQTT_COMMAND_TOPIC := (MQTT_BASE_TOPIC_PREFIX ++ "/command_to_esp32")%string.
Definition MQTT_STATUS_TOPIC := (MQTT_BASE_TOPIC_PREFIX ++ "/status_from_esp32")%string.
Definition MQTT_ESP32_READY_TOPIC := (MQTT_BASE_TOPIC_PREFIX ++ "/esp32_ready")%string.

Definition _log (message : string) : M unit :=
  emit (ConsoleLog ("MQTT_Ctrl: " ++ message)%string).

Definition _error (message : string) : M unit :=
  emit (ConsoleError ("MQTT_Ctrl ERROR: " ++ message)%string).

Definition _updateAndNotifyStatus
    (isBrokerConnectedState isDeviceOnlineState : bool) (statusMessage : string) : M unit :=
  modify (withStatus isBrokerConnectedState isDeviceOnlineState) ;;
  cb <- gets onConnectionStatusChangeCallback ;;
  if cb then
    b <- gets connectedToBroker ;;
    emit (StatusCallback [VStr "mqtt"; VBool b; VStr statusMessage])
  else ret tt.

Definition isBrokerConnected (w : World) : bool :=
  connectedToBroker w && clientIsConnected w.

Definition isFullyConnected (w : World) : bool :=
  isBrokerConnected w && esp32ConfirmedOnline w.

(** [client.onConnectionLost], as stored by [init]. *)
Definition onConnectionLost (responseObject : ResponseObject) : M unit :=
  id <- gets deviceReadyTimeoutId ;;
  clearTimeout id ;;
  if negb (Nat.eqb (errorCode responseObject) 0) then
    _error ("Connection Lost - " ++ errorMessage responseObject)%string ;;
    _updateAndNotifyStatus false false "MQTT Connection Lost"
  else
    _log "Deliberately disconnected from MQTT broker." ;;
    _updateAndNotifyStatus false false "MQTT Disconnected".

(** [client.onMessageArrived], as stored by [init]. *)
Definition onMessageArrived (destinationName payloadString : string) : M unit :=
  if String.eqb destinationName MQTT_STATUS_TOPIC then
    cb <- gets onDataReceivedCallback ;;
    if cb then emit (DataCallback payloadString) else ret tt
  else if String.eqb destinationName MQTT_ESP32_READY_TOPIC then
    if truthy payloadString && includes "online" (toLowerCase payloadString) then
      _log "ESP32 reported 'online' via MQTT (esp32_ready topic)." ;;
      id <- gets deviceReadyTimeoutId ;;
      clearTimeout id ;;
      b <- gets connectedToBroker ;;
      if b then _updateAndNotifyStatus true true "MQTT Device Online"
      else
        _log "Received ESP32 ready, but broker connection state is false. This is unusual." ;;
        live <- gets clientIsConnected ;;
        if live then _updateAndNotifyStatus true true "MQTT Device Online"
        else ret tt
    else ret tt
  else ret tt.

Definition init (config : option Config) : M bool :=
  _log "init() called." ;;
  if negb pahoDefined then
    _error "init(): Paho.Client component is missing." ;; ret false
  else
    (match config with
     | Some c =>
         (if cfgOnDataReceived c then modify (withDataCallback true) else ret tt) ;;
         (if cfgOnConnectionStatusChange c then modify (withStatusCallback true) else ret tt)
     | None => ret tt
     end) ;;
    _log ("Creating Paho.Client for " ++ MQTT_BROKER_HOST ++ ":8000")%string ;;
    match newClient with
    | None => _error "Error creating Paho.Client instance:" ;; ret false
    | Some t =>
        modify (withClient (Some t)) ;;
        _log "Initialized successfully." ;;
        ret true
    end.

(** Reading an identifier that is bound neither in the closure nor globally
    throws a ReferenceError. *)
Definition resolve (name : string) : M JsValue :=
  match globals name with
  | Some v => ret v
  | None => throw (ReferenceError name)
  end.

Definition connect : M unit :=
  b <- gets connectedToBroker ;;
  if b then _log "Already connected or connecting to broker."
  else
    c <- gets client ;;
    match c with
    | None => _error "Client not initialized. Call init() first."
    | Some _ =>
        _log ("Attempting to connect to MQTT broker at " ++ MQTT_BROKER_HOST ++ ":8000...")%string ;;
        _updateAndNotifyStatus false false "MQTT Connecting..." ;;
        _ <- resolve "onMessageArrived" ;;
        _ <- resolve "onConnectionLost" ;;
        s <- resolve "onConnectSuccess" ;;
        f <- resolve "onConnectFailure" ;;
        ssl <- resolve "MQTT_USE_SSL" ;;
        topic <- resolve "MQTT_DEVICE_READY_TOPIC" ;;
        let connectOptions := mkOptions s f ssl true true 10 "offline" topic 1 true in
        tryCatch
          (call (connectReq connectOptions) (ClientConnect connectOptions))
          (fun _ =>
             _error "Error during initial client.connect call:" ;;
             _updateAndNotifyStatus false false "MQTT Connection Error")
    end.

(** The function handed to [setTimeout] in [_startDeviceReadyCheckTimer]. *)
Definition deviceReadyCheck : M unit :=
  b <- gets connectedToBroker ;;
  d <- gets esp32ConfirmedOnline ;;
  if b && negb d then
    _log "Timeout: ESP32 did not send 'online' message via MQTT within 7s." ;;
    _updateAndNotifyStatus true false "MQTT: Device Not Responding"
  else ret tt.

Definition _startDeviceReadyCheckTimer : M unit :=
  old <- gets deviceReadyTimeoutId ;;
  clearTimeout old ;;
  _log "Starting timer for ESP32 'online' message (7 seconds)." ;;
  id <- setTimeout 7000 ;;
  modify (withTimeoutId (Some id)).

Definition _subscribeToTopicsAndRestartDeviceCheckTimer : M unit :=
  live <- gets clientIsConnected ;;
  if negb live then
    _error "Cannot subscribe or start device check, not connected to broker."
  else
    call (subscribeReq MQTT_STATUS_TOPIC) (ClientSubscribe MQTT_STATUS_TOPIC) ;;
    call (subscribeReq MQTT_ESP32_READY_TOPIC) (ClientSubscribe MQTT_ESP32_READY_TOPIC) ;;
    _startDeviceReadyCheckTimer.

(** [if (client.isConnected()) client.m(...)] *)
Definition whenConnected (req : T -> Reply T) (e : Effect) : M unit :=
  live <- gets clientIsConnected ;;
  if live then call req e else ret tt.

Definition disconnect : M unit :=
  _log "disconnect() called by main application." ;;
  id <- gets deviceReadyTimeoutId ;;
  clearTimeout id ;;
  live <- gets clientIsConnected ;;
  if live then
    _log "Actively disconnecting Paho client from MQTT broker." ;;
    tryCatch
      (whenConnected (unsubscribeReq MQTT_STATUS_TOPIC) (ClientUnsubscribe MQTT_STATUS_TOPIC) ;;
       whenConnected (unsubscribeReq MQTT_ESP32_READY_TOPIC) (ClientUnsubscribe MQTT_ESP32_READY_TOPIC) ;;
       whenConnected disconnectReq ClientDisconnect)
      (fun _ =>
         _error "Exception during Paho client.disconnect() sequence:" ;;
         _updateAndNotifyStatus false false "MQTT Disconnect Error")
  else
    _log "disconnect() called but Paho client already disconnected or not initialized." ;;
    _updateAndNotifyStatus false false "MQTT Disconnected".

(** [jsonString] is [JSON.stringify(commandObject)], assumed to succeed. *)
Definition publish (jsonString : string) : M bool :=
  ok <- gets isBrokerConnected ;;
  if negb ok then
    _error "Cannot publish: Not connected to MQTT broker." ;; ret false
  else
    full <- gets isFullyConnected ;;
    (if negb full then
       _log "Warning: Publishing command, but ESP32 device is not confirmed online. Message might be queued or lost."
     else ret tt) ;;
    tryCatch
      (call (sendReq MQTT_COMMAND_TOPIC jsonString)
            (ClientSend MQTT_COMMAND_TOPIC jsonString) ;;
       ret true)
      (fun _ => _error "Publish error:" ;; ret false).

Definition forceDeviceOnlineConfirmation : M unit :=
  ok <- gets isBrokerConnected ;;
  d <- gets esp32ConfirmedOnline ;;
  if ok && negb d then
    _log "Device online status externally confirmed (e.g., via BLE ack for ESP32's custom handshake)." ;;
    id <- gets deviceReadyTimeoutId ;;
    clearTimeout id ;;
    _updateAndNotifyStatus true true "MQTT Device Online (Confirmed Alt)"
  else if negb ok then
    _log "forceDeviceOnlineConfirmation called, but not even connected to broker."
  else ret tt.

Definition getStatus (w : World) : bool * bool * bool :=
  (connectedToBroker w, esp32ConfirmedOnline w, isFullyConnected w).

End Code.

End Part000.

(** ** The controller as a state machine

    One step is one run-to-completion turn of the event loop: a call of
    the host on the public interface, a callback of the Paho client, a
    timeout that expires, or the client changing state on its own (the
    socket opens or closes).  Every handler is taken to be callable at any
    time, which allows more runs than a real broker session does. *)

Inductive Variant : Type := js6 | part_000.

Inductive Event (T : Type) : Type :=
| HostInit (config : option Config)
| HostConnect
| HostDisconnect
| HostPublish (jsonString : string)
| HostForceOnline
| ConnectSucceeded                                   (* connectOptions.onSuccess *)
| ConnectFailed (responseObject : ResponseObject)    (* connectOptions.onFailure *)
| ConnectionLost (responseObject : ResponseObject)   (* client.onConnectionLost *)
| MessageArrived (topic payload : string)            (* client.onMessageArrived *)
| TimerFired (id : nat)
| SubscribeAndRestart      (* part_000: _subscribeToTopicsAndRestartDeviceCheckTimer *)
| ClientChanged (t : T).
Arguments HostInit {T} config.
Arguments HostConnect {T}.
Arguments HostDisconnect {T}.
Arguments HostPublish {T} jsonString.
Arguments HostForceOnline {T}.
Arguments ConnectSucceeded {T}.
Arguments ConnectFailed {T} responseObject.
Arguments ConnectionLost {T} responseObject.
Arguments MessageArrived {T} topic payload.
Arguments TimerFired {T} id.
Arguments SubscribeAndRestart {T}.
Arguments ClientChanged {T} t.

Section Machine.

Context {T : Type} {paho : Transport T}.

Variable globals : string -> option JsValue.

Local Abbreviation M := (M T).
Local Abbreviation World := (World T).

Definition ignore {A} (m : M A) : M unit := _ <- m ;; ret tt.

(** The event loop takes the expired timer off its queue, then runs it. *)
Definition expire (id : nat) (callback : M unit) : M unit :=
  modify (fun w => withTimers (cancel (Some id) (timers w)) (nextTimer w) w) ;;
  callback.

(** js6.js has no [_subscribeToTopicsAndRestartDeviceCheckTimer]; part_000
    has no connect-success and no connect-failure handler of its own. *)
Definition dispatch (v : Variant) (e : Event T) : M unit :=
  match v, e with
  | js6, HostInit c => ignore (Js6.init c)
  | js6, HostConnect => Js6.connect
  | js6, HostDisconnect => Js6.disconnect
  | js6, HostPublish s => ignore (Js6.publish s)
  | js6, HostForceOnline => Js6.forceDeviceOnlineConfirmation
  | js6, ConnectSucceeded => Js6.onConnectSuccess
  | js6, ConnectFailed r => Js6.onConnectFailure r
  | js6, ConnectionLost r => Js6.onConnectionLost r
  | js6, MessageArrived t p => Js6.onMessageArrived t p
  | js6, TimerFired id => expire id Js6.deviceReadyTimeout
  | js6, SubscribeAndRestart => ret tt
  | part_000, HostInit c => ignore (Part000.init c)
  | part_000, HostConnect => Part000.connect globals
  | part_000, HostDisconnect => Part000.disconnect
  | part_000, HostPublish s => ignore (Part000.publish s)
  | part_000, HostForceOnline => Part000.forceDeviceOnlineConfirmation
  | part_000, ConnectSucceeded => ret tt
  | part_000, ConnectFailed _ => ret tt
  | part_000, ConnectionLost r => Part000.onConnectionLost r
  | part_000, MessageArrived t p => Part000.onMessageArrived t p
  | part_000, TimerFired id => expire id Part000.deviceReadyCheck
  | part_000, SubscribeAndRestart => Part000._subscribeToTopicsAndRestartDeviceCheckTimer
  | _, ClientChanged t => modify (withClient (Some t))
  end.

Definition enabled (e : Event T) (w : World) : bool :=
  match e with
  | TimerFired id => existsb (Nat.eqb id) (timers w)
  | ClientChanged _ => match client w with Some _ => true | None => false end
  | _ => true
  end.

Inductive reachable (v : Variant) : World -> Prop :=
| reachable_start : reachable v initialWorld
| reachable_step (w : World) (e : Event T) :
    reachable v w -> enabled e w = true -> reachable v (world (dispatch v e w)).

(** Runs a list of events from a world, enabled or not. *)
Fixpoint run (v : Variant) (es : list (Event T)) (w : World) : World :=
  match es with
  | [] => w
  | e :: rest => run v rest (world (dispatch v e w))
  end.

(** Every event of the list is enabled when its turn comes. *)
Fixpoint runnable (v : Variant) (es : list (Event T)) (w : World) : bool :=
  match es with
  | [] => true
  | e :: rest => enabled e w && runnable v rest (world (dispatch v e w))
  end.

(** deviceConfirmed implies brokerConnected. *)
Definition coherent (w : World) : Prop :=
  esp32ConfirmedOnline w = true -> connectedToBroker w = true.

(** Everything of the world but the client object and the timer queue. *)
Definition controllerState (w : World) : bool * bool * bool * bool * option nat :=
  (connectedToBroker w, esp32ConfirmedOnline w,
   onDataReceivedCallback w, onConnectionStatusChangeCallback w,
   deviceReadyTimeoutId w).

End Machine.

(** ** Reading a trace *)

Definition mentions (label : string) (a : JsValue) : bool :=
  match a with VStr m => includes label m | _ => false end.

(** The status callback was called with a message that contains [label]. *)
Definition notifies (label : string) (tr : list Effect) : bool :=
  existsb (fun e => match e with
                    | StatusCallback args => existsb (mentions label) args
                    | _ => false
                    end) tr.

(** The calls of the status callback, in order. *)
Definition statusCalls (tr : list Effect) : list Effect := filter isStatusCallback tr.

(** The calls on the Paho client, in order. *)
Definition transportCalls (tr : list Effect) : list Effect := filter isTransportCall tr.

(** [console.log] printed exactly [m]. *)
Definition logs (m : string) (tr : list Effect) : bool :=
  existsb (fun e => match e with ConsoleLog m' => String.eqb m m' | _ => false end) tr.

Definition hasClient {T} (w : World T) : bool :=
  match client w with Some _ => true | None => false end.

(** Whether [client.send] returns (rather than throws) in this world. *)
Definition sendReturns {T} {paho : Transport T} (topic s : string) (w : World T) : bool :=
  match client w with
  | Some t => match sendReq topic s t with Done _ => true | Raised _ => false end
  | None => false
  end.

(** What part_000 [publish] prints before sending to an unconfirmed device. *)
Definition bestEffortWarning : string :=
  "MQTT_Ctrl: Warning: Publishing command, but ESP32 device is not confirmed online. Message might be queued or lost.".

(** ** A stand-in for the Paho client

    It follows Paho's documented contract: [connect] throws when a session
    is open or being opened, every other method throws unless a session is
    open.  The controller sees a session open once the environment has
    flipped [connected] (event [ClientChanged]). *)

Record Paho : Type := mkPaho { connected : bool; connecting : bool }.

#[export] Instance pahoDouble : Transport Paho := {
  pahoDefined := true;
  newClient := Some (mkPaho false false);
  isConnected t := connected t;
  connectReq _ t :=
    if connected t || connecting t then Raised t else Done (mkPaho false true);
  subscribeReq _ t := if connected t then Done t else Raised t;
  unsubscribeReq _ t := if connected t then Done t else Raised t;
  disconnectReq t :=
    if connected t || connecting t then Done (mkPaho false false) else Raised t;
  sendReq _ _ t := if connected t then Done t else Raised t
}.

(** No binding besides what the file itself declares. *)
Definition noGlobals : string -> option JsValue := fun _ => None.

Definition bothCallbacks : Config := mkConfig true true.

Definition sessionOpen : Event Paho := ClientChanged (mkPaho true false).

Definition socketClosed : ResponseObject := mkResponse 8 "AMQJS0008I Socket closed.".
Definition cleanClose : ResponseObject := mkResponse 0 "AMQJS0000I OK.".

(** Worlds of js6.js, each reached by running the controller. *)
Definition js6_idle : World Paho :=
  run noGlobals js6 [HostInit (Some bothCallbacks)] initialWorld.
Definition js6_connecting : World Paho :=
  run noGlobals js6 [HostConnect] js6_idle.
Definition js6_awaiting : World Paho :=
  run noGlobals js6 [sessionOpen; ConnectSucceeded] js6_connecting.
Definition js6_full : World Paho :=
  run noGlobals js6 [MessageArrived Js6.MQTT_DEVICE_READY_TOPIC "online"] js6_awaiting.

(** A session that drops and comes back before the first timeout is due. *)
Definition reconnectThenOnline : list (Event Paho) :=
  [HostConnect; sessionOpen; ConnectSucceeded;
   ClientChanged (mkPaho false false); ConnectionLost socketClosed;
   HostConnect; sessionOpen; ConnectSucceeded;
   MessageArrived Js6.MQTT_DEVICE_READY_TOPIC "online"].

(** Worlds of part_000.  The file has no connect-success handler; its flags
    rise when "online" arrives on a client whose session is open. *)
Definition p0_idle : World Paho :=
  run noGlobals part_000 [HostInit (Some bothCallbacks)] initialWorld.
Definition p0_full : World Paho :=
  run noGlobals part_000
      [sessionOpen; MessageArrived Part000.MQTT_ESP32_READY_TOPIC "online"] p0_idle.
(** part_000 with a client whose session is open and both flags still false. *)
Definition p0_session : World Paho :=
  run noGlobals part_000 [sessionOpen] p0_idle.

(** ** Further readings of a trace and of the world *)

Definition isDataCallback (e : Effect) : bool :=
  match e with DataCallback _ => true | _ => false end.

(** The calls of the data callback, in order. *)
Definition dataCalls (tr : list Effect) : list Effect := filter isDataCallback tr.

(** The last call of the status callback, if there was one. *)
Definition lastStatusCall (tr : list Effect) : option Effect :=
  last (map Some (statusCalls tr)) None.

(** What the last status call of js6.js told the host: both flags. *)
Definition toldFlags (tr : list Effect) : option (bool * bool) :=
  match lastStatusCall tr with
  | Some (StatusCallback [VBool b; VBool d; VStr _]) => Some (b, d)
  | _ => None
  end.

(** What the last status call of part_000 told the host: the broker flag. *)
Definition toldBroker (tr : list Effect) : option bool :=
  match lastStatusCall tr with
  | Some (StatusCallback [VStr _; VBool b; VStr _]) => Some b
  | _ => None
  end.

(** The events by which the Paho client or the timer queue calls the
    controller back. *)
Definition isCallbackEvent {T} (e : Event T) : bool :=
  match e with
  | ConnectSucceeded | ConnectFailed _ | ConnectionLost _
  | MessageArrived _ _ | TimerFired _ => true
  | _ => false
  end.

(** No timeout is pending, or one is and it is the one the controller holds. *)
Definition singleWatchdog {T} (w : World T) : bool :=
  match timers w with
  | [] => true
  | [i] => match deviceReadyTimeoutId w with
           | Some j => Nat.eqb i j
           | None => false
           end
  | _ => false
  end.

(** The two flags are equal. *)
Definition balanced {T} (w : World T) : Prop :=
  connectedToBroker w = esp32ConfirmedOnline w.

(** [new Paho.Client(...)] returned. *)
Definition clientCreated {T} {paho : Transport T} : bool :=
  match newClient with Some _ => true | None => false end.

(** [m] returns normally and makes no call on the Paho client, in every world. *)
Definition quiet {T} {A} (m : M T A) : Prop :=
  forall w, completedNormally (m w) = true /\ transportCalls (trace (m w)) = [].

(** What a run tells the host about the flags it leaves behind: the last
    status call carries them (js6.js: both; part_000: the broker flag), or
    there was no call and they are as before. *)
Definition accounted {T} (v : Variant) (w : World T) {A} (r : Res T A) : Prop :=
  match v with
  | js6 =>
      match toldFlags (trace r) with
      | Some told => told = flags (world r)
      | None => statusCalls (trace r) = [] /\ flags (world r) = flags w
      end
  | part_000 =>
      match toldBroker (trace r) with
      | Some told => told = connectedToBroker (world r)
      | None => statusCalls (trace r) = [] /\ flags (world r) = flags w
      end
  end.

(** With the status callback registered, [m] keeps it registered and
    accounts for the flags. *)
Definition announces {T} (v : Variant) {A} (m : M T A) : Prop :=
  forall w,
    onConnectionStatusChangeCallback w = true ->
    onConnectionStatusChangeCallback (world (m w)) = true /\ accounted v w (m w).

(** js6.js between the opening of the session and the connect-success
    callback, and part_000 with its watchdog armed. *)
Definition js6_open : World Paho := run noGlobals js6 [sessionOpen] js6_connecting.
Definition p0_armed : World Paho :=
  run noGlobals part_000 [SubscribeAndRestart] p0_session.

(** * Proofs *)

(** ** Invariants through the monad *)

Section Preservation.

Context {T : Type} {paho : Transport T}.

Variable I : World T -> Prop.

Lemma preserves_ret {A} (a : A) : preserves I (ret a).
Proof. intros w H; exact H. Qed.

Lemma preserves_throw {A} (e : Exn) : preserves I (throw (A := A) e).
Proof. intros w H; exact H. Qed.

Lemma preserves_gets {A} (f : World T -> A) : preserves I (gets f).
Proof. intros w H; exact H. Qed.

Lemma preserves_emit (e : Effect) : preserves I (emit e).
Proof. intros w H; exact H. Qed.

Lemma preserves_modify (f : World T -> World T) :
  (forall w, I w -> I (f w)) -> preserves I (modify f).
Proof. intros Hf w H; apply Hf, H. Qed.

Lemma preserves_bind {A B} (m : M T A) (f : A -> M T B) :
  preserves I m -> (forall a, preserves I (f a)) -> preserves I (bind m f).
Proof.
  intros Hm Hf w H. unfold bind.
  specialize (Hm w H).
  destruct (m w) as [[a | e] w1 t1]; cbn in Hm |- *.
  - specialize (Hf a w1 Hm). destruct (f a w1) as [c w2 t2]. exact Hf.
  - exact Hm.
Qed.

Lemma preserves_tryCatch {A} (body : M T A) (handler : Exn -> M T A) :
  preserves I body -> (forall e, preserves I (handler e)) ->
  preserves I (tryCatch body handler).
Proof.
  intros Hb Hh w H. unfold tryCatch.
  specialize (Hb w H).
  destruct (body w) as [[a | e] w1 t1]; cbn in Hb |- *.
  - exact Hb.
  - specialize (Hh e w1 Hb). destruct (handler e w1) as [c w2 t2]. exact Hh.
Qed.

Lemma preserves_call (req : T -> Reply T) (e : Effect) :
  (forall t w, I w -> I (withClient (Some t) w)) -> preserves I (call req e).
Proof.
  intros Hc w H. unfold call.
  destruct (client w) as [t |]; cbn; [ | exact H ].
  destruct (req t); cbn; apply Hc, H.
Qed.

Lemma preserves_setTimeout (ms : N) :
  (forall l n w, I w -> I (withTimers l n w)) -> preserves I (setTimeout ms).
Proof. intros Ht w H. unfold setTimeout; cbn. apply Ht, H. Qed.

Lemma preserves_clearTimeout (id : option nat) :
  (forall l n w, I w -> I (withTimers l n w)) -> preserves I (clearTimeout id).
Proof. intros Ht w H. unfold clearTimeout; cbn. apply Ht, H. Qed.

End Preservation.

Create HintDb preserve.

#[export] Hint Resolve preserves_ret preserves_throw preserves_gets
  preserves_emit : preserve.

Ltac preserve_step :=
  match goal with
  | |- preserves _ (bind _ _) => apply preserves_bind; [ | intro ]
  | |- preserves _ (tryCatch _ _) => apply preserves_tryCatch; [ | intro ]
  | |- preserves _ (if ?b then _ else _) => destruct b
  | |- preserves _ (match ?x with _ => _ end) => destruct x
  end.

Ltac preserve := repeat preserve_step; eauto with preserve.

(** ** deviceConfirmed implies brokerConnected *)

Section Coherence.

Context {T : Type} {paho : Transport T}.

Variable globals : string -> option JsValue.

Local Abbreviation keeps := (preserves (T := T) (coherent (T := T))).

Lemma coherent_withClient (c : option T) (w : World T) :
  coherent w -> coherent (withClient c w).
Proof. exact (fun H => H). Qed.

Lemma coherent_withTimers (l : list nat) (n : nat) (w : World T) :
  coherent w -> coherent (withTimers l n w).
Proof. exact (fun H => H). Qed.

Lemma coherent_withStatus (b d : bool) (w : World T) :
  (d = true -> b = true) -> coherent (withStatus b d w).
Proof. intros H; exact H. Qed.

Lemma coherent_call (req : T -> Reply T) (e : Effect) :
  keeps (call req e).
Proof. apply preserves_call. intros; now apply coherent_withClient. Qed.

Lemma coherent_setTimeout (ms : N) : keeps (setTimeout ms).
Proof. apply preserves_setTimeout. intros; now apply coherent_withTimers. Qed.

Lemma coherent_clearTimeout (id : option nat) :
  keeps (clearTimeout id).
Proof. apply preserves_clearTimeout. intros; now apply coherent_withTimers. Qed.

Lemma coherent_modify_other (f : World T -> World T) :
  (forall w, flags (f w) = flags w) -> keeps (modify f).
Proof.
  intros Hf. apply preserves_modify. intros w H.
  specialize (Hf w). unfold flags in Hf. injection Hf as Hb Hd.
  unfold coherent. rewrite Hb, Hd. exact H.
Qed.

Hint Resolve coherent_call coherent_setTimeout coherent_clearTimeout : preserve.

(** All writes to the two flags go through [_updateAndNotifyStatus], and
    every call site passes a pair with device implying broker. *)
Lemma js6_update_coherent (b d : bool) (m : string) :
  (d = true -> b = true) -> keeps (Js6._updateAndNotifyStatus b d m).
Proof.
  intros H. unfold Js6._updateAndNotifyStatus. preserve.
  apply preserves_modify. intros; now apply coherent_withStatus.
Qed.

Lemma p0_update_coherent (b d : bool) (m : string) :
  (d = true -> b = true) ->
  keeps (Part000._updateAndNotifyStatus b d m).
Proof.
  intros H. unfold Part000._updateAndNotifyStatus. preserve.
  apply preserves_modify. intros; now apply coherent_withStatus.
Qed.

Ltac flags_ok :=
  first [ apply js6_update_coherent | apply p0_update_coherent ];
  intro; first [ reflexivity | discriminate ].

Ltac coherence :=
  repeat preserve_step;
  first [ flags_ok
        | apply coherent_modify_other; reflexivity
        | solve [ eauto with preserve ] ].

Lemma js6_disconnect_coherent : keeps Js6.disconnect.
Proof. unfold Js6.disconnect, Js6._log, Js6._error. coherence. Qed.

Hint Resolve js6_disconnect_coherent : preserve.

Lemma js6_dispatch_coherent (e : Event T) : keeps (dispatch globals js6 e).
Proof.
  destruct e; cbn [dispatch];
    unfold ignore, expire, Js6.init, Js6.connect, Js6.publish,
      Js6.forceDeviceOnlineConfirmation, Js6.onConnectSuccess,
      Js6.onConnectFailure, Js6.onConnectionLost, Js6.onMessageArrived,
      Js6.deviceReadyTimeout, Js6._log, Js6._error;
    coherence.
Qed.

Lemma p0_dispatch_coherent (e : Event T) :
  keeps (dispatch globals part_000 e).
Proof.
  destruct e; cbn [dispatch];
    unfold ignore, expire, Part000.init, Part000.connect, Part000.resolve,
      Part000.disconnect, Part000.whenConnected, Part000.publish,
      Part000.forceDeviceOnlineConfirmation, Part000.onConnectionLost,
      Part000.onMessageArrived, Part000.deviceReadyCheck,
      Part000._subscribeToTopicsAndRestartDeviceCheckTimer,
      Part000._startDeviceReadyCheckTimer, Part000._log, Part000._error;
    coherence.
Qed.

Lemma dispatch_coherent (v : Variant) (e : Event T) :
  keeps (dispatch globals v e).
Proof.
  destruct v; [ apply js6_dispatch_coherent | apply p0_dispatch_coherent ].
Qed.

Lemma reachable_coherent (v : Variant) (w : World T) :
  reachable globals v w -> coherent w.
Proof.
  induction 1 as [ | w e _ IH _ ].
  - discriminate.
  - now apply dispatch_coherent.
Qed.

(** C1. In every reachable state of either variant, deviceConfirmed implies
    brokerConnected; and whatever transition is taken from there, if it leaves
    brokerConnected false it leaves deviceConfirmed false as well. *)
Theorem C1_device_confirmed_implies_broker_connected
    (v : Variant) (w : World T) (H : reachable globals v w) :
  (esp32ConfirmedOnline w = true -> connectedToBroker w = true) /\
  (forall e : Event T,
      connectedToBroker (world (dispatch globals v e w)) = false ->
      esp32ConfirmedOnline (world (dispatch globals v e w)) = false).
Proof.
  split.
  - exact (reachable_coherent v w H).
  - intros e Hb.
    pose proof (dispatch_coherent v e w (reachable_coherent v w H)) as Hc.
    unfold coherent in Hc.
    destruct (esp32ConfirmedOnline (world (dispatch globals v e w))); [ | reflexivity ].
    rewrite Hc in Hb by reflexivity. discriminate.
Qed.

Lemma reachable_run (v : Variant) (es : list (Event T)) (w : World T) :
  reachable globals v w -> runnable globals v es w = true ->
  reachable globals v (run globals v es w).
Proof.
  revert w. induction es as [ | e rest IH ]; intros w Hw Hes; cbn in *.
  - exact Hw.
  - apply andb_prop in Hes as [He Hrest].
    apply IH; [ now apply reachable_step | exact Hrest ].
Qed.

End Coherence.

Ltac by_run es :=
  match goal with
  | |- reachable ?g ?v ?w =>
      replace w with (run g v es initialWorld) by (vm_compute; reflexivity);
      apply reachable_run; [ apply reachable_start | vm_compute; reflexivity ]
  end.

(** The worlds used as examples below are states of the machine. *)
Lemma js6_worlds_reachable :
  reachable noGlobals js6 js6_idle /\
  reachable noGlobals js6 js6_connecting /\
  reachable noGlobals js6 js6_awaiting /\
  reachable noGlobals js6 js6_full.
Proof.
  repeat split.
  - by_run [HostInit (T := Paho) (Some bothCallbacks)].
  - by_run [HostInit (T := Paho) (Some bothCallbacks); HostConnect].
  - by_run [HostInit (Some bothCallbacks); HostConnect; sessionOpen; ConnectSucceeded].
  - by_run [HostInit (Some bothCallbacks); HostConnect; sessionOpen; ConnectSucceeded;
            MessageArrived Js6.MQTT_DEVICE_READY_TOPIC "online"].
Qed.

Lemma p0_worlds_reachable :
  reachable noGlobals part_000 p0_idle /\
  reachable noGlobals part_000 p0_session /\
  reachable noGlobals part_000 p0_full.
Proof.
  repeat split.
  - by_run [HostInit (T := Paho) (Some bothCallbacks)].
  - by_run [HostInit (Some bothCallbacks); sessionOpen].
  - by_run [HostInit (Some bothCallbacks); sessionOpen;
            MessageArrived Part000.MQTT_ESP32_READY_TOPIC "online"].
Qed.

Lemma C1_witness :
  (esp32ConfirmedOnline js6_full = true -> connectedToBroker js6_full = true) /\
  (forall e : Event Paho,
      connectedToBroker (world (dispatch noGlobals js6 e js6_full)) = false ->
      esp32ConfirmedOnline (world (dispatch noGlobals js6 e js6_full)) = false).
Proof.
  apply (C1_device_confirmed_implies_broker_connected noGlobals js6 js6_full).
  apply js6_worlds_reachable.
Defined.

(** ** Running the code on a symbolic world *)

Ltac concretize w :=
  destruct w as [wc wb wd wdcb wscb wid wts wnt];
  cbn [client connectedToBroker esp32ConfirmedOnline onDataReceivedCallback
       onConnectionStatusChangeCallback deviceReadyTimeoutId timers nextTimer] in *;
  subst.

Ltac exec :=
  cbv -[pahoDefined newClient isConnected connectReq subscribeReq
        unsubscribeReq disconnectReq sendReq cancel watchdogArmed].

Ltac ask_transport :=
  match goal with
  | H : ?x = _ |- context [?x] => rewrite H
  | |- context [isConnected ?t] => destruct (isConnected t) eqn:?
  | |- context [connectReq ?o ?t] => destruct (connectReq o t) eqn:?
  | |- context [subscribeReq ?s ?t] => destruct (subscribeReq s t) eqn:?
  | |- context [unsubscribeReq ?s ?t] => destruct (unsubscribeReq s t) eqn:?
  | |- context [disconnectReq ?t] => destruct (disconnectReq t) eqn:?
  | |- context [sendReq ?a ?b ?t] => destruct (sendReq a b t) eqn:?
  end.

Ltac crunch := exec; repeat (ask_transport; exec).

Lemma existsb_cancel (i : nat) (l : list nat) :
  existsb (Nat.eqb i) (cancel (Some i) l) = false.
Proof.
  induction l as [ | j l IH ]; cbn; [ reflexivity | ].
  destruct (Nat.eqb j i) eqn:E; cbn; [ exact IH | ].
  rewrite Nat.eqb_sym, E. exact IH.
Qed.

Lemma watchdog_cancelled {T} (c : option T) (b d f g : bool)
    (id : option nat) (l : list nat) (n : nat) :
  watchdogArmed (mkWorld c b d f g id (cancel id l) n) = false.
Proof.
  destruct id as [i | ]; cbn; [ apply existsb_cancel | reflexivity ].
Qed.

(** ** connect *)

Section Connect.

Context {T : Type} {paho : Transport T}.

Variable globals : string -> option JsValue.

(** With the flag set, [connect] only writes to the console. *)
Lemma connect_when_flag_set (v : Variant) (w : World T) :
  connectedToBroker w = true ->
  world (dispatch globals v HostConnect w) = w /\
  completion (dispatch globals v HostConnect w) = Normal tt /\
  forallb isConsole (trace (dispatch globals v HostConnect w)) = true.
Proof.
  intros Hb. concretize w. destruct v; exec; auto.
Qed.

(** C2, as the code has it.  The guard of js6.js [connect] reads
    [connectedToBroker], which stays false until the broker answers.  So a
    [connect()] that finds a client and the flag false (the state a first
    [connect()] leaves behind) calls [client.connect] once more, whatever the
    client does with the call, and writes (false, false) to the flags again. *)
Theorem C2_connect_while_connecting_calls_transport_again
    (w : World T) (t : T)
    (Hc : client w = Some t) (Hb : connectedToBroker w = false) :
  count isConnectRequest (trace (Js6.connect w)) = 1 /\
  completion (Js6.connect w) = Normal tt /\
  flags (world (Js6.connect w)) = (false, false).
Proof.
  concretize w. destruct wscb; crunch; auto.
Qed.

(** part_000 does the same once its six free identifiers resolve. *)
Lemma p0_connect_while_connecting_calls_transport_again
    (w : World T) (t : T) :
  (forall name, globals name <> None) ->
  client w = Some t -> connectedToBroker w = false ->
  count isConnectRequest (trace (Part000.connect globals w)) = 1.
Proof.
  intros Hg Hc Hb. concretize w.
  unfold Part000.connect, Part000.resolve.
  destruct (globals "onMessageArrived") as [v1 | ] eqn:E1; [ | now apply Hg in E1 ].
  destruct (globals "onConnectionLost") as [v2 | ] eqn:E2; [ | now apply Hg in E2 ].
  destruct (globals "onConnectSuccess") as [v3 | ] eqn:E3; [ | now apply Hg in E3 ].
  destruct (globals "onConnectFailure") as [v4 | ] eqn:E4; [ | now apply Hg in E4 ].
  destruct (globals "MQTT_USE_SSL") as [v5 | ] eqn:E5; [ | now apply Hg in E5 ].
  destruct (globals "MQTT_DEVICE_READY_TOPIC") as [v6 | ] eqn:E6; [ | now apply Hg in E6 ].
  destruct wscb; crunch; auto.
Qed.

(** C8, as the code has it.  In part_000 [connect] reads [onMessageArrived]
    outside its try block; with a client, the flag false and no global of
    that name, the ReferenceError reaches the host and [client.connect] is
    never called. *)
Theorem C8_part000_connect_throws_to_host
    (w : World T) (t : T)
    (Hc : client w = Some t) (Hb : connectedToBroker w = false)
    (Hg : globals "onMessageArrived" = None) :
  completion (Part000.connect globals w) = Throw (ReferenceError "onMessageArrived") /\
  count isConnectRequest (trace (Part000.connect globals w)) = 0.
Proof.
  concretize w. unfold Part000.connect, Part000.resolve. rewrite Hg.
  destruct wscb; crunch; auto.
Qed.

(** Every other host call of either file ends normally, whatever the
    transport does. *)
Lemma other_host_calls_return (w : World T) (s : string) :
  completedNormally (Js6.connect w) = true /\
  completedNormally (Js6.disconnect w) = true /\
  completedNormally (Js6.publish s w) = true /\
  completedNormally (Js6.forceDeviceOnlineConfirmation w) = true /\
  completedNormally (Part000.disconnect w) = true /\
  completedNormally (Part000.publish s w) = true /\
  completedNormally (Part000.forceDeviceOnlineConfirmation w) = true.
Proof.
  concretize w.
  repeat split; destruct wc, wb, wd, wscb; crunch; reflexivity.
Qed.

(** C10. Without a client, [connect] of either variant returns normally,
    leaves the world as it was, and does nothing but write to the console: no
    call on the transport, no status callback. *)
Theorem C10_connect_without_client_is_silent
    (v : Variant) (w : World T) (H : client w = None) :
  completion (dispatch globals v HostConnect w) = Normal tt /\
  world (dispatch globals v HostConnect w) = w /\
  forallb isConsole (trace (dispatch globals v HostConnect w)) = true /\
  count isTransportCall (trace (dispatch globals v HostConnect w)) = 0 /\
  count isStatusCallback (trace (dispatch globals v HostConnect w)) = 0.
Proof.
  concretize w. destruct v, wb; exec; auto.
Qed.

End Connect.

Ltac finish :=
  repeat split;
  first [ reflexivity | apply watchdog_cancelled | assumption | idtac ].

(** ** publish, the transport callbacks, the watchdog, disconnect *)

Section Operations.

Context {T : Type} {paho : Transport T}.

(** C3, amended.  part_000 [publish] refuses (returns false, no call on the
    client, world untouched) exactly when [isBrokerConnected()] is false, that
    is when the flag is false, there is no client, or the client reports no
    session.  Otherwise it calls [client.send] exactly once, returns true if
    the call returned and false if it threw, changes none of the controller's
    variables, calls no status callback, and prints the best-effort warning on
    the console exactly when the device is unconfirmed.  js6.js [publish]
    refuses in the same way whenever [isFullyConnected()] is false, so also
    when the broker is connected and the device unconfirmed; otherwise it
    sends once and returns whether the send returned. *)
Theorem C3_publish_gates (w : World T) (s : string) :
  (if Part000.isBrokerConnected w then
     completion (Part000.publish s w)
       = Normal (sendReturns Part000.MQTT_COMMAND_TOPIC s w) /\
     transportCalls (trace (Part000.publish s w))
       = [ClientSend Part000.MQTT_COMMAND_TOPIC s] /\
     statusCalls (trace (Part000.publish s w)) = [] /\
     controllerState (world (Part000.publish s w)) = controllerState w /\
     logs bestEffortWarning (trace (Part000.publish s w))
       = negb (esp32ConfirmedOnline w)
   else
     Part000.publish s w
       = mkRes (Normal false) w
           [ConsoleError "MQTT_Ctrl ERROR: Cannot publish: Not connected to MQTT broker."]) /\
  (if Js6.isFullyConnected w then
     completion (Js6.publish s w) = Normal (sendReturns Js6.MQTT_COMMAND_TOPIC s w) /\
     transportCalls (trace (Js6.publish s w))
       = (if hasClient w then [ClientSend Js6.MQTT_COMMAND_TOPIC s] else []) /\
     statusCalls (trace (Js6.publish s w)) = [] /\
     controllerState (world (Js6.publish s w)) = controllerState w
   else
     Js6.publish s w
       = mkRes (Normal false) w
           [ConsoleError "MQTT_Ctrl ERROR: Cannot publish: Not fully connected."]).
Proof.
  concretize w. split; destruct wc, wb, wd; crunch; finish.
Qed.


(** C5, amended.  When the watchdog fires with the broker connected and the
    device unconfirmed, both variants leave the flags at (true, false);
    part_000 calls the status callback with ("mqtt", true, "MQTT: Device Not
    Responding") and js6.js with (true, false, "Device Offline").  In
    part_000 a firing in any other state, in particular with the device
    confirmed, changes nothing and reports nothing. *)
Theorem C5_watchdog_fires (w : World T) :
  (if connectedToBroker w && negb (esp32ConfirmedOnline w) then
     flags (world (Part000.deviceReadyCheck w)) = (true, false) /\
     statusCalls (trace (Part000.deviceReadyCheck w))
       = (if onConnectionStatusChangeCallback w
          then [StatusCallback [VStr "mqtt"; VBool true; VStr "MQTT: Device Not Responding"]]
          else []) /\
     flags (world (Js6.deviceReadyTimeout w)) = (true, false) /\
     statusCalls (trace (Js6.deviceReadyTimeout w))
       = (if onConnectionStatusChangeCallback w
          then [StatusCallback [VBool true; VBool false; VStr "Device Offline"]]
          else [])
   else
     Part000.deviceReadyCheck w = mkRes (Normal tt) w []).
Proof.
  concretize w. destruct wb, wd, wscb; exec; finish.
Qed.






End Operations.

(** ** The theorems at work, and where the specification parts from the code *)

Ltac refute :=
  let H := fresh "H" in
  intro H; vm_compute in H;
  repeat match goal with
         | H : _ /\ _ |- _ => destruct H
         | H : _ \/ _ |- _ => destruct H
         end;
  first [ discriminate | contradiction ].

Ltac by_running :=
  repeat match goal with |- _ /\ _ => split end;
  match goal with
  | |- ~ _ => refute
  | |- _ => vm_compute; reflexivity
  end.

Lemma C2_witness :
  count isConnectRequest (trace (Js6.connect js6_connecting)) = 1 /\
  completion (Js6.connect js6_connecting) = Normal tt /\
  flags (world (Js6.connect js6_connecting)) = (false, false).
Proof.
  apply (C2_connect_while_connecting_calls_transport_again
           js6_connecting (mkPaho false true)); vm_compute; reflexivity.
Defined.

(** The failing run in full: init, connect, connect.  [client.connect] is
    called twice and the host hears "MQTT Connecting..." twice. *)
Lemma js6_connect_twice_two_requests :
  flags js6_connecting = (false, false) /\
  count isConnectRequest
    (trace (Js6.connect js6_idle) ++ trace (Js6.connect js6_connecting)) = 2 /\
  notifies "MQTT Connecting..." (trace (Js6.connect js6_connecting)) = true.
Proof. by_running. Qed.

Lemma C8_witness :
  completion (Part000.connect noGlobals p0_idle)
    = Throw (ReferenceError "onMessageArrived") /\
  count isConnectRequest (trace (Part000.connect noGlobals p0_idle)) = 0.
Proof.
  apply (C8_part000_connect_throws_to_host noGlobals p0_idle (mkPaho false false));
    vm_compute; reflexivity.
Defined.

Lemma C10_witness :
  completion (dispatch noGlobals part_000 HostConnect (initialWorld (T := Paho)))
    = Normal tt /\
  world (dispatch noGlobals part_000 HostConnect (initialWorld (T := Paho)))
    = initialWorld /\
  forallb isConsole
    (trace (dispatch noGlobals part_000 HostConnect (initialWorld (T := Paho)))) = true /\
  count isTransportCall
    (trace (dispatch noGlobals part_000 HostConnect (initialWorld (T := Paho)))) = 0 /\
  count isStatusCallback
    (trace (dispatch noGlobals part_000 HostConnect (initialWorld (T := Paho)))) = 0.
Proof.
  apply (C10_connect_without_client_is_silent noGlobals part_000 initialWorld).
  vm_compute; reflexivity.
Defined.

(** C3 fails on js6.js: with the broker connected and the device unconfirmed,
    [publish] does not proceed; it returns false and sends nothing. *)
Lemma C3_counterexample :
  connectedToBroker js6_awaiting = true /\
  esp32ConfirmedOnline js6_awaiting = false /\
  ~ (completion (Js6.publish "{}" js6_awaiting) = Normal true /\
     count isSend (trace (Js6.publish "{}" js6_awaiting)) = 1).
Proof. by_running. Qed.


(** C5 fails on js6.js: the timeout that fires with the broker connected and
    the device unconfirmed reports "Device Offline", and no call of the status
    callback mentions "Device Not Responding". *)
Lemma C5_counterexample :
  flags js6_awaiting = (true, false) /\
  ~ (notifies "Device Not Responding" (trace (Js6.deviceReadyTimeout js6_awaiting))
     = true).
Proof. by_running. Qed.

(** js6.js never cancels a timer when the connection drops and starts a new
    one at every connect success, so an old timer can expire after the device
    confirmed: connect, success, loss, connect, success, "online", and then
    timer 1 fires and takes the confirmation back. *)
Lemma js6_stale_timer_undoes_confirmation :
  runnable noGlobals js6 (reconnectThenOnline ++ [TimerFired 1]) js6_idle = true /\
  flags (run noGlobals js6 reconnectThenOnline js6_idle) = (true, true) /\
  flags (run noGlobals js6 (reconnectThenOnline ++ [TimerFired 1]) js6_idle)
    = (true, false).
Proof. by_running. Qed.


(** The deliberate path of part_000 on the stand-in client: [disconnect]
    unsubscribes twice and tears down, and the flags fall with the
    connection-lost callback that follows. *)
Lemma p0_disconnect_then_clean_close :
  transportCalls (trace (Part000.disconnect p0_full))
    = [ClientUnsubscribe Part000.MQTT_STATUS_TOPIC;
       ClientUnsubscribe Part000.MQTT_ESP32_READY_TOPIC;
       ClientDisconnect] /\
  flags (world (Part000.disconnect p0_full)) = (true, true) /\
  flags (world (Part000.onConnectionLost cleanClose (world (Part000.disconnect p0_full))))
    = (false, false) /\
  statusCalls
    (trace (Part000.onConnectionLost cleanClose (world (Part000.disconnect p0_full))))
    = [StatusCallback [VStr "mqtt"; VBool false; VStr "MQTT Disconnected"]].
Proof. by_running. Qed.




(** ** What part_000 keeps true of its timer and of its flags *)

Section Part000Invariants.

Context {T : Type} {paho : Transport T}.

Variable globals : string -> option JsValue.

Local Abbreviation single := (fun w : World T => singleWatchdog w = true).

Lemma single_cancel (id : option nat) (n : nat) (w : World T) :
  singleWatchdog w = true ->
  singleWatchdog (withTimers (cancel id (timers w)) n w) = true.
Proof.
  destruct w as [c b d f g held ts nt]. unfold singleWatchdog. cbn.
  destruct ts as [ | i [ | j rest ] ]; try discriminate; destruct id as [k | ]; cbn;
    try (intros H; exact H).
  destruct (Nat.eqb i k); cbn; intros H; [ reflexivity | exact H ].
Qed.

Lemma single_clearTimeout (id : option nat) :
  preserves single (clearTimeout id).
Proof.
  intros w H. unfold clearTimeout. cbn. now apply single_cancel.
Qed.

Lemma single_call (req : T -> Reply T) (e : Effect) : preserves single (call req e).
Proof. apply preserves_call. intros t w H; exact H. Qed.

(** Arming cancels the timer held before: a world with at most the held
    timer pending has exactly the new one pending afterwards. *)
Lemma single_start :
  preserves single (Part000._startDeviceReadyCheckTimer (T := T)).
Proof.
  intros w H. destruct w as [c b d f g held ts nt].
  unfold singleWatchdog in H. cbn in H.
  destruct ts as [ | i [ | j rest ] ]; try discriminate.
  - destruct held; cbv -[Nat.eqb]; apply Nat.eqb_refl.
  - destruct held as [k | ]; try discriminate.
    apply Nat.eqb_eq in H. subst k.
    cbv -[Nat.eqb]. rewrite Nat.eqb_refl. cbv -[Nat.eqb]. apply Nat.eqb_refl.
Qed.

Hint Resolve single_clearTimeout single_call single_start : preserve.

Ltac keep_single :=
  repeat preserve_step;
  first [ solve [ eauto with preserve ]
        | apply preserves_modify; intros ? H; exact H
        | apply preserves_modify; intros ? H; now apply single_cancel ].

Lemma p0_dispatch_single (e : Event T) :
  preserves single (dispatch globals part_000 e).
Proof.
  destruct e; cbn [dispatch];
    unfold ignore, expire, Part000.init, Part000.connect, Part000.resolve,
      Part000.disconnect, Part000.whenConnected, Part000.publish,
      Part000.forceDeviceOnlineConfirmation, Part000.onConnectionLost,
      Part000.onMessageArrived, Part000.deviceReadyCheck,
      Part000._subscribeToTopicsAndRestartDeviceCheckTimer,
      Part000._updateAndNotifyStatus, Part000._log, Part000._error;
    keep_single.
Qed.

(** X1. In every reachable state of part_000 at most one timeout is pending,
    and it is the one whose id the controller holds: arming always cancels
    the timer held before. *)
Theorem p0_at_most_one_watchdog_pending (w : World T)
    (H : reachable globals part_000 w) :
  singleWatchdog w = true.
Proof.
  induction H as [ | w e _ IH _ ].
  - reflexivity.
  - now apply p0_dispatch_single.
Qed.

Local Abbreviation level := (balanced (T := T)).

Lemma balanced_update (b : bool) (m : string) :
  preserves level (Part000._updateAndNotifyStatus b b m).
Proof.
  unfold Part000._updateAndNotifyStatus. preserve.
  apply preserves_modify. intros w _. reflexivity.
Qed.

Lemma balanced_check : preserves level (Part000.deviceReadyCheck (T := T)).
Proof.
  intros w H. destruct w as [c b d f g held ts nt].
  unfold balanced in *. cbn in H. subst d.
  destruct b, g; cbv; reflexivity.
Qed.

Hint Resolve balanced_update balanced_check : preserve.

Ltac keep_level :=
  repeat preserve_step;
  first [ solve [ eauto with preserve ]
        | apply preserves_modify; intros ? H; exact H
        | apply preserves_call; intros ? ? H; exact H
        | apply preserves_setTimeout; intros ? ? ? H; exact H
        | apply preserves_clearTimeout; intros ? ? ? H; exact H ].

Lemma p0_dispatch_balanced (e : Event T) :
  preserves level (dispatch globals part_000 e).
Proof.
  destruct e; cbn [dispatch];
    unfold ignore, expire, Part000.init, Part000.connect, Part000.resolve,
      Part000.disconnect, Part000.whenConnected, Part000.publish,
      Part000.forceDeviceOnlineConfirmation, Part000.onConnectionLost,
      Part000.onMessageArrived,
      Part000._subscribeToTopicsAndRestartDeviceCheckTimer,
      Part000._startDeviceReadyCheckTimer, Part000._log, Part000._error;
    keep_level.
Qed.

Lemma p0_reachable_balanced (w : World T) :
  reachable globals part_000 w -> balanced w.
Proof.
  induction 1 as [ | w e _ IH _ ].
  - reflexivity.
  - now apply p0_dispatch_balanced.
Qed.

(** X2. In every reachable state of part_000 the two flags are equal: nothing
    in the file sets the broker flag without the device flag.  So the
    watchdog callback and [forceDeviceOnlineConfirmation] never find the
    state they test for: the first does nothing at all, the second changes
    nothing and calls no status callback. *)
Theorem p0_never_awaiting (w : World T) (H : reachable globals part_000 w) :
  connectedToBroker w = esp32ConfirmedOnline w /\
  Part000.deviceReadyCheck w = mkRes (Normal tt) w [] /\
  world (Part000.forceDeviceOnlineConfirmation w) = w /\
  statusCalls (trace (Part000.forceDeviceOnlineConfirmation w)) = [].
Proof.
  pose proof (p0_reachable_balanced w H) as Hb. unfold balanced in Hb.
  split; [ exact Hb | ].
  destruct w as [wc wb wd wdcb wscb wid wts wnt]. cbn in Hb. subst wd.
  repeat split; destruct wc, wb; crunch; reflexivity.
Qed.

End Part000Invariants.

(** ** init, the connect callbacks, and the data path *)

Ltac ask_page :=
  match goal with
  | |- context [@newClient ?T ?p] => destruct (@newClient T p) eqn:?
  | |- context [@pahoDefined ?T ?p] => destruct (@pahoDefined T p) eqn:?
  end.

Ltac crunch_all := exec; repeat (first [ ask_transport | ask_page ]; exec).

Section Lifecycle.

Context {T : Type} {paho : Transport T}.

(** X3. js6.js [init] is idempotent: once a client was created, a second
    [init], whatever its argument, returns true and changes nothing; the
    callbacks of the first call stay. *)
Theorem js6_init_twice_is_init_once
    (w : World T) (first : Config) (second : option Config) (t : T)
    (Hn : newClient = Some t) (Hc : client w = None) :
  completion (Js6.init (Some first) w) = Normal true /\
  Js6.init second (world (Js6.init (Some first) w))
    = mkRes (Normal true) (world (Js6.init (Some first) w))
        [ConsoleLog "MQTT_Ctrl: MQTT Controller already initialized."].
Proof.
  concretize w. unfold Js6.init at 1 3 4. rewrite Hn.
  destruct first, second as [[? ?] | ]; crunch_all; split; reflexivity.
Qed.

(** X4. Called without an argument on a controller that has no client,
    js6.js [init] throws a TypeError before creating a client and leaves the
    world as it was; part_000 [init] returns whether the client was created
    and keeps the callbacks it has. *)
Theorem init_without_argument (w : World T) (Hc : client w = None) :
  Js6.init None w
    = mkRes (Throw (TypeError "callbacks is undefined")) w
        [ConsoleLog "MQTT_Ctrl: Initializing MQTT Controller..."] /\
  completion (Part000.init None w) = Normal (pahoDefined && clientCreated) /\
  onDataReceivedCallback (world (Part000.init None w)) = onDataReceivedCallback w /\
  onConnectionStatusChangeCallback (world (Part000.init None w))
    = onConnectionStatusChangeCallback w.
Proof.
  concretize w. repeat split; crunch_all; reflexivity.
Qed.

(** X5. part_000 [init] returns true exactly when Paho is defined and the
    client was created, and then installs the new client even over an old
    one.  It never touches the flags or the timers, never calls the transport
    or the status callback, and never unregisters a callback: one the
    argument lacks stays as it was. *)
Theorem p0_init_keeps_flags_and_callbacks (w : World T) (config : Config) :
  completion (Part000.init (Some config) w) = Normal (pahoDefined && clientCreated) /\
  client (world (Part000.init (Some config) w))
    = (if pahoDefined
       then match newClient with Some t => Some t | None => client w end
       else client w) /\
  flags (world (Part000.init (Some config) w)) = flags w /\
  timers (world (Part000.init (Some config) w)) = timers w /\
  deviceReadyTimeoutId (world (Part000.init (Some config) w)) = deviceReadyTimeoutId w /\
  onDataReceivedCallback (world (Part000.init (Some config) w))
    = onDataReceivedCallback w || (pahoDefined && cfgOnDataReceived config) /\
  onConnectionStatusChangeCallback (world (Part000.init (Some config) w))
    = onConnectionStatusChangeCallback w
      || (pahoDefined && cfgOnConnectionStatusChange config) /\
  transportCalls (trace (Part000.init (Some config) w)) = [] /\
  statusCalls (trace (Part000.init (Some config) w)) = [].
Proof.
  concretize w. destruct config as [a b].
  repeat split; destruct a, b, wdcb, wscb; crunch_all; reflexivity.
Qed.

(** X6. js6.js [onConnectSuccess] always returns normally.  When both
    subscriptions return it leaves the flags at (true, false), has subscribed
    to the status topic and then to the device-ready topic, has started one
    timeout of 10000 ms on top of those pending and holds its id.  When a
    subscription throws it starts no timeout, asks the client to disconnect,
    and leaves both flags false, the host hearing "Awaiting Device..." and
    then "MQTT Disconnected"; after a throw of the first subscription the
    second is not attempted. *)
Theorem js6_connect_success_outcome (w : World T) (t : T) (Hc : client w = Some t) :
  completion (Js6.onConnectSuccess w) = Normal tt /\
  match subscribeReq Js6.MQTT_STATUS_TOPIC t with
  | Done t1 =>
      match subscribeReq Js6.MQTT_DEVICE_READY_TOPIC t1 with
      | Done _ =>
          flags (world (Js6.onConnectSuccess w)) = (true, false) /\
          transportCalls (trace (Js6.onConnectSuccess w))
            = [ClientSubscribe Js6.MQTT_STATUS_TOPIC;
               ClientSubscribe Js6.MQTT_DEVICE_READY_TOPIC] /\
          filter isSetTimeout (trace (Js6.onConnectSuccess w))
            = [SetTimeout (nextTimer w) 10000] /\
          timers (world (Js6.onConnectSuccess w)) = nextTimer w :: timers w /\
          deviceReadyTimeoutId (world (Js6.onConnectSuccess w)) = Some (nextTimer w) /\
          statusCalls (trace (Js6.onConnectSuccess w))
            = (if onConnectionStatusChangeCallback w
               then [StatusCallback [VBool true; VBool false; VStr "Awaiting Device..."]]
               else [])
      | Raised _ =>
          flags (world (Js6.onConnectSuccess w)) = (false, false) /\
          transportCalls (trace (Js6.onConnectSuccess w))
            = [ClientSubscribe Js6.MQTT_STATUS_TOPIC;
               ClientSubscribe Js6.MQTT_DEVICE_READY_TOPIC;
               ClientDisconnect] /\
          filter isSetTimeout (trace (Js6.onConnectSuccess w)) = [] /\
          timers (world (Js6.onConnectSuccess w)) = timers w /\
          statusCalls (trace (Js6.onConnectSuccess w))
            = (if onConnectionStatusChangeCallback w
               then [StatusCallback [VBool true; VBool false; VStr "Awaiting Device..."];
                     StatusCallback [VBool false; VBool false; VStr "MQTT Disconnected"]]
               else [])
      end
  | Raised _ =>
      flags (world (Js6.onConnectSuccess w)) = (false, false) /\
      transportCalls (trace (Js6.onConnectSuccess w))
        = [ClientSubscribe Js6.MQTT_STATUS_TOPIC; ClientDisconnect] /\
      filter isSetTimeout (trace (Js6.onConnectSuccess w)) = [] /\
      timers (world (Js6.onConnectSuccess w)) = timers w /\
      statusCalls (trace (Js6.onConnectSuccess w))
        = (if onConnectionStatusChangeCallback w
           then [StatusCallback [VBool true; VBool false; VStr "Awaiting Device..."];
                 StatusCallback [VBool false; VBool false; VStr "MQTT Disconnected"]]
           else [])
  end.
Proof.
  concretize w. split; destruct wscb; crunch; finish.
Qed.

(** X7. After a connect failure or a connection loss, js6.js [connect] is
    open again: with a client it calls [client.connect] exactly once,
    whatever the flags were before the failure. *)
Theorem js6_connect_retries_after_failure_or_loss
    (w : World T) (t : T) (responseObject : ResponseObject)
    (Hc : client w = Some t) :
  count isConnectRequest
    (trace (Js6.connect (world (Js6.onConnectFailure responseObject w)))) = 1 /\
  count isConnectRequest
    (trace (Js6.connect (world (Js6.onConnectionLost responseObject w)))) = 1.
Proof.
  concretize w. split; destruct wscb; crunch; reflexivity.
Qed.

(** X8. part_000 [_subscribeToTopicsAndRestartDeviceCheckTimer] does nothing
    but print an error without a client or when the client reports no
    session.  Otherwise it subscribes to the status topic and then to the
    device-ready topic outside any try block: when one of them throws, the
    exception propagates and no timeout is started; when both return, the
    held timer is cancelled and one timeout of 7000 ms is started and held. *)
Theorem p0_subscribe_and_restart_outcome (w : World T) :
  match client w with
  | Some t =>
      if isConnected t then
        match subscribeReq Part000.MQTT_STATUS_TOPIC t with
        | Done t1 =>
            match subscribeReq Part000.MQTT_ESP32_READY_TOPIC t1 with
            | Done _ =>
                completion (Part000._subscribeToTopicsAndRestartDeviceCheckTimer w)
                  = Normal tt /\
                transportCalls (trace (Part000._subscribeToTopicsAndRestartDeviceCheckTimer w))
                  = [ClientSubscribe Part000.MQTT_STATUS_TOPIC;
                     ClientSubscribe Part000.MQTT_ESP32_READY_TOPIC] /\
                filter isSetTimeout (trace (Part000._subscribeToTopicsAndRestartDeviceCheckTimer w))
                  = [SetTimeout (nextTimer w) 7000] /\
                timers (world (Part000._subscribeToTopicsAndRestartDeviceCheckTimer w))
                  = nextTimer w :: cancel (deviceReadyTimeoutId w) (timers w) /\
                deviceReadyTimeoutId (world (Part000._subscribeToTopicsAndRestartDeviceCheckTimer w))
                  = Some (nextTimer w)
            | Raised _ =>
                completion (Part000._subscribeToTopicsAndRestartDeviceCheckTimer w)
                  = Throw TransportError /\
                filter isSetTimeout (trace (Part000._subscribeToTopicsAndRestartDeviceCheckTimer w))
                  = [] /\
                timers (world (Part000._subscribeToTopicsAndRestartDeviceCheckTimer w))
                  = timers w
            end
        | Raised _ =>
            completion (Part000._subscribeToTopicsAndRestartDeviceCheckTimer w)
              = Throw TransportError /\
            transportCalls (trace (Part000._subscribeToTopicsAndRestartDeviceCheckTimer w))
              = [ClientSubscribe Part000.MQTT_STATUS_TOPIC] /\
            timers (world (Part000._subscribeToTopicsAndRestartDeviceCheckTimer w))
              = timers w
        end
      else
        Part000._subscribeToTopicsAndRestartDeviceCheckTimer w
          = mkRes (Normal tt) w
              [ConsoleError "MQTT_Ctrl ERROR: Cannot subscribe or start device check, not connected to broker."]
  | None =>
      Part000._subscribeToTopicsAndRestartDeviceCheckTimer w
        = mkRes (Normal tt) w
            [ConsoleError "MQTT_Ctrl ERROR: Cannot subscribe or start device check, not connected to broker."]
  end.
Proof.
  concretize w. destruct wc; crunch; finish.
Qed.

(** X9. A message on the status topic is handed to the data callback once and
    unchanged when one is registered, and does nothing else in either
    variant: the world stays as it was and the status callback is not
    called. *)
Theorem status_topic_only_reaches_data_callback (w : World T) (payload : string) :
  (world (Js6.onMessageArrived Js6.MQTT_STATUS_TOPIC payload w) = w /\
   completion (Js6.onMessageArrived Js6.MQTT_STATUS_TOPIC payload w) = Normal tt /\
   dataCalls (trace (Js6.onMessageArrived Js6.MQTT_STATUS_TOPIC payload w))
     = (if onDataReceivedCallback w then [DataCallback payload] else []) /\
   statusCalls (trace (Js6.onMessageArrived Js6.MQTT_STATUS_TOPIC payload w)) = []) /\
  Part000.onMessageArrived Part000.MQTT_STATUS_TOPIC payload w
    = mkRes (Normal tt) w
        (if onDataReceivedCallback w then [DataCallback payload] else []).
Proof.
  concretize w. repeat split; destruct wdcb; exec; reflexivity.
Qed.

(** X10. A message on a topic other than the status and the device-ready
    topic changes nothing and reaches no callback, whatever its payload;
    js6.js prints the topic, part_000 prints nothing. *)
Theorem other_topics_are_ignored (w : World T) (topic payload : string)
    (Hs : String.eqb topic Js6.MQTT_STATUS_TOPIC = false)
    (Hr : String.eqb topic Js6.MQTT_DEVICE_READY_TOPIC = false) :
  Js6.onMessageArrived topic payload w
    = mkRes (Normal tt) w
        [ConsoleLog ("MQTT_Ctrl: Message arrived on topic: " ++ topic)%string] /\
  Part000.onMessageArrived topic payload w = mkRes (Normal tt) w [].
Proof.
  unfold Js6.onMessageArrived, Part000.onMessageArrived.
  change Part000.MQTT_STATUS_TOPIC with Js6.MQTT_STATUS_TOPIC.
  change Part000.MQTT_ESP32_READY_TOPIC with Js6.MQTT_DEVICE_READY_TOPIC.
  rewrite Hs, Hr. concretize w. split; exec; reflexivity.
Qed.

(** X11. In js6.js, with a client, [publish] right after a device-ready
    message reaches the transport exactly when the payload was "online";
    after any other payload it is refused without a call on the client. *)
Theorem js6_publish_follows_device_report
    (w : World T) (t : T) (payload s : string) (Hc : client w = Some t) :
  if String.eqb payload "online" then
    transportCalls
      (trace (Js6.publish s
                (world (Js6.onMessageArrived Js6.MQTT_DEVICE_READY_TOPIC payload w))))
      = [ClientSend Js6.MQTT_COMMAND_TOPIC s]
  else
    Js6.publish s (world (Js6.onMessageArrived Js6.MQTT_DEVICE_READY_TOPIC payload w))
      = mkRes (Normal false)
          (world (Js6.onMessageArrived Js6.MQTT_DEVICE_READY_TOPIC payload w))
          [ConsoleError "MQTT_Ctrl ERROR: Cannot publish: Not fully connected."].
Proof.
  unfold Js6.onMessageArrived. rewrite String.eqb_refl.
  destruct (String.eqb payload "online"); concretize w; destruct wscb; crunch; reflexivity.
Qed.

End Lifecycle.

(** ** What the callbacks never do *)

Section Quiet.

Context {T : Type} {paho : Transport T}.

Lemma quiet_ret {A} (a : A) : quiet (ret (T := T) a).
Proof. intros w; split; reflexivity. Qed.

Lemma quiet_gets {A} (f : World T -> A) : quiet (gets f).
Proof. intros w; split; reflexivity. Qed.

Lemma quiet_modify (f : World T -> World T) : quiet (modify f).
Proof. intros w; split; reflexivity. Qed.

Lemma quiet_emit (e : Effect) : isTransportCall e = false -> quiet (emit (T := T) e).
Proof.
  intros H w; split; [ reflexivity | ].
  unfold emit, transportCalls. cbn. now rewrite H.
Qed.

Lemma quiet_clearTimeout (id : option nat) : quiet (clearTimeout (T := T) id).
Proof. intros w; split; reflexivity. Qed.

Lemma quiet_bind {A B} (m : M T A) (f : A -> M T B) :
  quiet m -> (forall a, quiet (f a)) -> quiet (bind m f).
Proof.
  intros Hm Hf w. unfold bind. destruct (Hm w) as [Hn Ht].
  destruct (m w) as [[a | e] w1 t1]; cbn in Hn, Ht; [ | discriminate ].
  destruct (Hf a w1) as [Hn' Ht'].
  destruct (f a w1) as [c w2 t2]. cbn in *.
  split; [ exact Hn' | ].
  unfold transportCalls in *. now rewrite filter_app, Ht, Ht'.
Qed.

End Quiet.

Create HintDb quiet.

#[export] Hint Resolve quiet_ret quiet_gets quiet_modify quiet_clearTimeout : quiet.

Ltac quiet_step :=
  match goal with
  | |- quiet (bind _ _) => apply quiet_bind; [ | intro ]
  | |- quiet (if ?b then _ else _) => destruct b
  | |- quiet (match ?x with _ => _ end) => destruct x
  end.

Ltac quietly :=
  repeat quiet_step;
  first [ solve [ eauto with quiet ] | apply quiet_emit; reflexivity ].

Section EveryEvent.

Context {T : Type} {paho : Transport T}.

Variable globals : string -> option JsValue.

Lemma quiet_callbacks (v : Variant) (e : Event T) :
  isCallbackEvent e = true ->
  match v, e with js6, ConnectSucceeded => True | _, _ => quiet (dispatch globals v e) end.
Proof.
  intros H. destruct v, e; try discriminate H; try exact I; cbn [dispatch];
    unfold expire, Js6.onConnectFailure, Js6.onConnectionLost, Js6.onMessageArrived,
      Js6.deviceReadyTimeout, Js6._updateAndNotifyStatus, Js6._log, Js6._error,
      Part000.onConnectionLost, Part000.onMessageArrived, Part000.deviceReadyCheck,
      Part000._updateAndNotifyStatus, Part000._log, Part000._error;
    quietly.
Qed.

Lemma bind_returns {A B} (m : M T A) (f : A -> M T B) :
  (forall w, completedNormally (m w) = true) ->
  (forall a w, completedNormally (f a w) = true) ->
  forall w, completedNormally (bind m f w) = true.
Proof.
  intros Hm Hf w. unfold bind. specialize (Hm w).
  destruct (m w) as [[a | e] w1 t1]; cbn in Hm; [ | discriminate ].
  specialize (Hf a w1). destruct (f a w1) as [c w2 t2]. exact Hf.
Qed.

Lemma tryCatch_returns {A} (body : M T A) (handler : Exn -> M T A) :
  (forall e w, completedNormally (handler e w) = true) ->
  forall w, completedNormally (tryCatch body handler w) = true.
Proof.
  intros Hh w. unfold tryCatch.
  destruct (body w) as [[a | e] w1 t1]; [ reflexivity | ].
  specialize (Hh e w1). destruct (handler e w1) as [c w2 t2]. exact Hh.
Qed.

Lemma js6_connect_success_returns (w : World T) :
  completedNormally (Js6.onConnectSuccess w) = true.
Proof.
  unfold Js6.onConnectSuccess. revert w.
  apply bind_returns; [ intros w; reflexivity | intros _ ].
  apply bind_returns.
  - assert (Hq : quiet (Js6._updateAndNotifyStatus (T := T) true false "Awaiting Device..."))
      by (unfold Js6._updateAndNotifyStatus; quietly).
    intros w. apply Hq.
  - intros _. apply tryCatch_returns. intros e.
    apply bind_returns; [ intros w; reflexivity | intros _ w ].
    destruct (other_host_calls_return w "") as (_ & H & _). exact H.
Qed.

(** X12. The callbacks the Paho client and the timer queue run (connect
    success and failure, connection lost, message arrived, timeout) return
    normally in both variants, in every world and for every transport; and
    all of them but js6.js [onConnectSuccess] make no call on the client. *)
Theorem callbacks_return_and_make_no_transport_call
    (v : Variant) (e : Event T) (w : World T) (H : isCallbackEvent e = true) :
  completedNormally (dispatch globals v e w) = true /\
  match v, e with
  | js6, ConnectSucceeded => True
  | _, _ => transportCalls (trace (dispatch globals v e w)) = []
  end.
Proof.
  pose proof (quiet_callbacks v e H) as Hq.
  destruct v, e; try discriminate H; try exact (Hq w).
  split; [ apply js6_connect_success_returns | exact I ].
Qed.

End EveryEvent.

(** ** What the host is told *)

Lemma last_app_some {A} (l1 l2 : list (option A)) (c : A) :
  last l2 None = Some c -> last (l1 ++ l2) None = Some c.
Proof.
  intros H. induction l1 as [ | x l1 IH ]; cbn [app]; [ exact H | ].
  cbn [last]. destruct (l1 ++ l2) eqn:E; [ | exact IH ].
  destruct l1, l2; cbn in E, H; discriminate.
Qed.

Lemma lastStatusCall_app_some (t1 t2 : list Effect) (c : Effect) :
  lastStatusCall t2 = Some c -> lastStatusCall (t1 ++ t2) = Some c.
Proof.
  unfold lastStatusCall, statusCalls. rewrite filter_app, map_app.
  apply last_app_some.
Qed.

Lemma lastStatusCall_app_none (t1 t2 : list Effect) :
  statusCalls t2 = [] -> lastStatusCall (t1 ++ t2) = lastStatusCall t1.
Proof.
  unfold lastStatusCall, statusCalls. intros H.
  now rewrite filter_app, H, app_nil_r.
Qed.

Lemma lastStatusCall_none (t : list Effect) :
  statusCalls t = [] -> lastStatusCall t = None.
Proof. unfold lastStatusCall. now intros ->. Qed.

Section Told.

Context {T : Type} {paho : Transport T}.

Lemma accounted_seq {A B} (v : Variant) (w w1 w2 : World T)
    (c1 : Completion A) (c2 : Completion B) (t1 t2 : list Effect) :
  accounted v w (mkRes c1 w1 t1) ->
  accounted v w1 (mkRes c2 w2 t2) ->
  accounted v w (mkRes c2 w2 (t1 ++ t2)).
Proof.
  unfold accounted, toldFlags, toldBroker, flags. cbn [trace world].
  intros H1 H2.
  destruct (lastStatusCall t2) as [c | ] eqn:E2.
  - rewrite (lastStatusCall_app_some t1 t2 c E2).
    destruct v;
      repeat match goal with
             | |- context [match ?x with _ => _ end] => destruct x
             end;
      try exact H2;
      destruct H2 as [H2 _]; rewrite (lastStatusCall_none _ H2) in E2; discriminate.
  - assert (Hs : statusCalls t2 = []) by (destruct v; apply H2).
    assert (Hf : (connectedToBroker w2, esp32ConfirmedOnline w2)
                 = (connectedToBroker w1, esp32ConfirmedOnline w1))
      by (destruct v; apply H2).
    injection Hf as Hb Hd.
    rewrite (lastStatusCall_app_none t1 t2 Hs).
    unfold statusCalls in *. rewrite filter_app, Hs, app_nil_r, Hb, Hd.
    exact H1.
Qed.

Lemma announces_still {A} (v : Variant) (m : M T A) :
  (forall w, trace (m w) = [] /\ flags (world (m w)) = flags w /\
             (onConnectionStatusChangeCallback w = true ->
              onConnectionStatusChangeCallback (world (m w)) = true)) ->
  announces v m.
Proof.
  intros H w Hcb. destruct (H w) as (Ht & Hf & Hc).
  split; [ now apply Hc | ].
  unfold accounted, toldFlags, toldBroker, lastStatusCall. rewrite Ht.
  destruct v; cbn; split; auto.
Qed.

Lemma announces_ret {A} (v : Variant) (a : A) : announces v (ret (T := T) a).
Proof. apply announces_still. intros w; repeat split; auto. Qed.

Lemma announces_throw {A} (v : Variant) (e : Exn) :
  announces v (throw (T := T) (A := A) e).
Proof. apply announces_still. intros w; repeat split; auto. Qed.

Lemma announces_gets {A} (v : Variant) (f : World T -> A) : announces v (gets f).
Proof. apply announces_still. intros w; repeat split; auto. Qed.

Lemma announces_modify (v : Variant) (f : World T -> World T) :
  (forall w, flags (f w) = flags w) ->
  (forall w, onConnectionStatusChangeCallback w = true ->
             onConnectionStatusChangeCallback (f w) = true) ->
  announces v (modify f).
Proof.
  intros Hf Hc. apply announces_still. intros w.
  split; [ reflexivity | split; [ exact (Hf w) | exact (Hc w) ] ].
Qed.

Lemma announces_emit (v : Variant) (e : Effect) :
  isStatusCallback e = false -> announces v (emit (T := T) e).
Proof.
  intros He w Hcb. split; [ exact Hcb | ].
  unfold accounted, toldFlags, toldBroker, lastStatusCall, statusCalls, emit.
  cbn. rewrite He. destruct v; cbn; split; reflexivity.
Qed.

Lemma announces_call (v : Variant) (req : T -> Reply T) (e : Effect) :
  isStatusCallback e = false -> announces v (call req e).
Proof.
  intros He w Hcb. unfold call.
  destruct (client w) as [t | ]; [ destruct (req t) | ];
    (split; [ exact Hcb | ]);
    unfold accounted, toldFlags, toldBroker, lastStatusCall, statusCalls;
    cbn; rewrite ?He; destruct v; cbn; split; reflexivity.
Qed.

Lemma announces_setTimeout (v : Variant) (ms : N) : announces v (setTimeout (T := T) ms).
Proof.
  intros w Hcb. split; [ exact Hcb | ]. destruct v; cbv; split; reflexivity.
Qed.

Lemma announces_clearTimeout (v : Variant) (id : option nat) :
  announces v (clearTimeout (T := T) id).
Proof.
  intros w Hcb. split; [ exact Hcb | ].
  destruct v; cbv -[cancel]; split; reflexivity.
Qed.

Lemma announces_bind {A B} (v : Variant) (m : M T A) (f : A -> M T B) :
  announces v m -> (forall a, announces v (f a)) -> announces v (bind m f).
Proof.
  intros Hm Hf w Hcb. unfold bind.
  destruct (Hm w Hcb) as [Hcb1 H1].
  destruct (m w) as [[a | e] w1 t1]; cbn [world] in *; [ | now split ].
  destruct (Hf a w1 Hcb1) as [Hcb2 H2].
  destruct (f a w1) as [c w2 t2]. cbn [world] in *.
  split; [ exact Hcb2 | ].
  exact (accounted_seq v w w1 w2 _ c t1 t2 H1 H2).
Qed.

Lemma announces_tryCatch {A} (v : Variant) (body : M T A) (handler : Exn -> M T A) :
  announces v body -> (forall e, announces v (handler e)) ->
  announces v (tryCatch body handler).
Proof.
  intros Hb Hh w Hcb. unfold tryCatch.
  destruct (Hb w Hcb) as [Hcb1 H1].
  destruct (body w) as [[a | e] w1 t1]; cbn [world] in *; [ now split | ].
  destruct (Hh e w1 Hcb1) as [Hcb2 H2].
  destruct (handler e w1) as [c w2 t2]. cbn [world] in *.
  split; [ exact Hcb2 | ].
  exact (accounted_seq v w w1 w2 _ c t1 t2 H1 H2).
Qed.

(** The one place where the flags are written is also where the host is
    called. *)
Lemma js6_update_announces (b d : bool) (m : string) :
  announces js6 (Js6._updateAndNotifyStatus (T := T) b d m).
Proof.
  intros w Hcb. concretize w. destruct b, d; cbv; split; reflexivity.
Qed.

Lemma p0_update_announces (b d : bool) (m : string) :
  announces part_000 (Part000._updateAndNotifyStatus (T := T) b d m).
Proof.
  intros w Hcb. concretize w. destruct b, d; cbv; split; reflexivity.
Qed.

End Told.

Create HintDb announce.

#[export] Hint Resolve announces_ret announces_throw announces_gets
  announces_setTimeout announces_clearTimeout
  js6_update_announces p0_update_announces : announce.

Ltac announce_step :=
  match goal with
  | |- announces _ (bind _ _) => apply announces_bind; [ | intro ]
  | |- announces _ (tryCatch _ _) => apply announces_tryCatch; [ | intro ]
  | |- announces _ (if ?b then _ else _) => destruct b
  | |- announces _ (match ?x with _ => _ end) => destruct x
  end.

Ltac announce :=
  repeat announce_step;
  first [ solve [ eauto with announce ]
        | apply announces_emit; reflexivity
        | apply announces_call; reflexivity
        | apply announces_modify; [ reflexivity | first [ reflexivity | intros ? H; exact H ] ] ].

Section ToldAlways.

Context {T : Type} {paho : Transport T}.

Variable globals : string -> option JsValue.

Lemma p0_dispatch_announces (e : Event T) :
  announces part_000 (dispatch globals part_000 e).
Proof.
  destruct e; cbn [dispatch];
    unfold ignore, expire, Part000.init, Part000.connect, Part000.resolve,
      Part000.disconnect, Part000.whenConnected, Part000.publish,
      Part000.forceDeviceOnlineConfirmation, Part000.onConnectionLost,
      Part000.onMessageArrived, Part000.deviceReadyCheck,
      Part000._subscribeToTopicsAndRestartDeviceCheckTimer,
      Part000._startDeviceReadyCheckTimer, Part000._log, Part000._error;
    announce.
Qed.

Lemma js6_disconnect_announces : announces js6 (Js6.disconnect (T := T)).
Proof. unfold Js6.disconnect, Js6._log, Js6._error. announce. Qed.

Hint Resolve js6_disconnect_announces : announce.

Lemma js6_dispatch_announces (e : Event T) :
  match e with HostInit _ => True | _ => announces js6 (dispatch globals js6 e) end.
Proof.
  destruct e; try exact I; cbn [dispatch];
    unfold ignore, expire, Js6.connect, Js6.disconnect, Js6.publish,
      Js6.forceDeviceOnlineConfirmation, Js6.onConnectSuccess,
      Js6.onConnectFailure, Js6.onConnectionLost, Js6.onMessageArrived,
      Js6.deviceReadyTimeout, Js6._log, Js6._error;
    announce.
Qed.

(** X13. With the status callback registered, no event changes the flags
    behind the host's back: either the status callback was not called and
    the flags are as before, or its last call carries what the flags now are
    (in js6.js both flags, in part_000 the broker flag). *)
Theorem host_is_told_every_flag_change
    (v : Variant) (e : Event T) (w : World T)
    (H : onConnectionStatusChangeCallback w = true) :
  accounted v w (dispatch globals v e w).
Proof.
  destruct v.
  - pose proof (js6_dispatch_announces e) as Ha.
    destruct e; try exact (proj2 (Ha w H)).
    cbn [dispatch]. concretize w.
    destruct config as [[a b] | ], wc; crunch_all; split; reflexivity.
  - exact (proj2 (p0_dispatch_announces e w H)).
Qed.

End ToldAlways.

(** ** The readiness test of part_000 *)






Section ReadyTest.

Context {T : Type} {paho : Transport T}.


(** X15. In js6.js, [publish] right after [disconnect] returns false without
    a call on the client, in whatever state [disconnect] was called. *)
Theorem js6_publish_refused_after_disconnect (w : World T) (s : string) :
  completion (Js6.publish s (world (Js6.disconnect w))) = Normal false /\
  transportCalls (trace (Js6.publish s (world (Js6.disconnect w)))) = [].
Proof.
  concretize w. split; destruct wc, wb, wd, wscb; crunch; reflexivity.
Qed.

(** X16. js6.js [connect], with a client, the broker flag false and the status
    callback registered, reports "MQTT Connecting..." and, exactly when
    [client.connect] throws, "MQTT Connection Error" after it: the exception
    does not leave [connect]. *)
Theorem js6_connect_reports_a_throwing_client (w : World T) (t : T)
    (Hc : client w = Some t) (Hb : connectedToBroker w = false)
    (Hcb : onConnectionStatusChangeCallback w = true) :
  statusCalls (trace (Js6.connect w))
    = StatusCallback [VBool false; VBool false; VStr "MQTT Connecting..."]
      :: match connectReq Js6.connectOptions t with
         | Done _ => []
         | Raised _ =>
             [StatusCallback [VBool false; VBool false; VStr "MQTT Connection Error"]]
         end.
Proof.
  concretize w. crunch; reflexivity.
Qed.

End ReadyTest.

(** ** The further theorems at work *)

Lemma p0_armed_reachable : reachable noGlobals part_000 p0_armed.
Proof.
  by_run [HostInit (Some bothCallbacks); sessionOpen; SubscribeAndRestart].
Qed.

Lemma p0_at_most_one_watchdog_pending_witness :
  timers p0_armed = [1] /\ singleWatchdog p0_armed = true.
Proof.
  split; [ vm_compute; reflexivity | ].
  apply (p0_at_most_one_watchdog_pending noGlobals p0_armed).
  exact p0_armed_reachable.
Defined.

Lemma p0_never_awaiting_witness :
  connectedToBroker p0_full = esp32ConfirmedOnline p0_full /\
  Part000.deviceReadyCheck p0_full = mkRes (Normal tt) p0_full [] /\
  world (Part000.forceDeviceOnlineConfirmation p0_full) = p0_full /\
  statusCalls (trace (Part000.forceDeviceOnlineConfirmation p0_full)) = [].
Proof.
  apply (p0_never_awaiting noGlobals p0_full). apply p0_worlds_reachable.
Defined.

Lemma js6_init_twice_is_init_once_witness :
  completion (Js6.init (Some bothCallbacks) (initialWorld (T := Paho))) = Normal true /\
  Js6.init None (world (Js6.init (Some bothCallbacks) (initialWorld (T := Paho))))
    = mkRes (Normal true) (world (Js6.init (Some bothCallbacks) initialWorld))
        [ConsoleLog "MQTT_Ctrl: MQTT Controller already initialized."].
Proof.
  apply (js6_init_twice_is_init_once initialWorld bothCallbacks None (mkPaho false false));
    reflexivity.
Defined.

Lemma init_without_argument_witness :
  Js6.init None (initialWorld (T := Paho))
    = mkRes (Throw (TypeError "callbacks is undefined")) initialWorld
        [ConsoleLog "MQTT_Ctrl: Initializing MQTT Controller..."].
Proof.
  apply (fun H => proj1 (init_without_argument (initialWorld (T := Paho)) H)).
  reflexivity.
Defined.

Lemma js6_connect_success_outcome_witness :
  client js6_open = Some (mkPaho true false) /\
  completion (Js6.onConnectSuccess js6_open) = Normal tt.
Proof.
  split; [ vm_compute; reflexivity | ].
  apply (fun H => proj1 (js6_connect_success_outcome js6_open (mkPaho true false) H)).
  vm_compute; reflexivity.
Defined.

Lemma js6_connect_retries_witness :
  count isConnectRequest
    (trace (Js6.connect (world (Js6.onConnectFailure socketClosed js6_connecting)))) = 1 /\
  count isConnectRequest
    (trace (Js6.connect (world (Js6.onConnectionLost socketClosed js6_connecting)))) = 1.
Proof.
  apply (js6_connect_retries_after_failure_or_loss
           js6_connecting (mkPaho false true) socketClosed).
  vm_compute; reflexivity.
Defined.

Lemma other_topics_are_ignored_witness :
  Js6.onMessageArrived "some/other/topic" "online" js6_awaiting
    = mkRes (Normal tt) js6_awaiting
        [ConsoleLog ("MQTT_Ctrl: Message arrived on topic: " ++ "some/other/topic")%string] /\
  Part000.onMessageArrived "some/other/topic" "online" js6_awaiting
    = mkRes (Normal tt) js6_awaiting [].
Proof.
  apply (other_topics_are_ignored js6_awaiting "some/other/topic" "online");
    vm_compute; reflexivity.
Defined.

Lemma js6_publish_follows_device_report_witness :
  if String.eqb "online" "online" then
    transportCalls
      (trace (Js6.publish "{}"
                (world (Js6.onMessageArrived Js6.MQTT_DEVICE_READY_TOPIC "online"
                          js6_awaiting))))
      = [ClientSend Js6.MQTT_COMMAND_TOPIC "{}"]
  else
    Js6.publish "{}"
      (world (Js6.onMessageArrived Js6.MQTT_DEVICE_READY_TOPIC "online" js6_awaiting))
      = mkRes (Normal false)
          (world (Js6.onMessageArrived Js6.MQTT_DEVICE_READY_TOPIC "online" js6_awaiting))
          [ConsoleError "MQTT_Ctrl ERROR: Cannot publish: Not fully connected."].
Proof.
  apply (js6_publish_follows_device_report
           js6_awaiting (mkPaho true false) "online" "{}").
  vm_compute; reflexivity.
Defined.

Lemma callbacks_return_witness :
  completedNormally
    (dispatch noGlobals js6 (ConnectionLost socketClosed) js6_full) = true /\
  transportCalls
    (trace (dispatch noGlobals js6 (ConnectionLost socketClosed) js6_full)) = [].
Proof.
  apply (callbacks_return_and_make_no_transport_call
           noGlobals js6 (ConnectionLost socketClosed) js6_full).
  reflexivity.
Defined.

Lemma host_is_told_witness :
  accounted js6 js6_open (dispatch noGlobals js6 ConnectSucceeded js6_open).
Proof.
  apply (host_is_told_every_flag_change noGlobals js6 ConnectSucceeded js6_open).
  vm_compute; reflexivity.
Defined.


Lemma js6_connect_reports_witness :
  statusCalls (trace (Js6.connect js6_connecting))
    = StatusCallback [VBool false; VBool false; VStr "MQTT Connecting..."]
      :: match connectReq Js6.connectOptions (mkPaho false true) with
         | Done _ => []
         | Raised _ =>
             [StatusCallback [VBool false; VBool false; VStr "MQTT Connection Error"]]
         end.
Proof.
  apply (js6_connect_reports_a_throwing_client js6_connecting (mkPaho false true));
    vm_compute; reflexivity.
Defined.
